(** * A shallow embedding of the blog application (main.py)

    The application is routing glue over an object-relational mapper: the
    embedding keeps the three tables, the unit of work of the ORM session
    (add / delete / commit), the request-scoped identity, and the handlers
    written in a small state-and-exception monad that follows the Python
    control flow statement by statement. *)

From Stdlib Require Import ZArith List String Bool Lia.
Import ListNotations.

Local Open Scope string_scope.
Local Open Scope list_scope.
Local Open Scope Z_scope.

(** ** Tables (main.py, CONFIGURE TABLES) *)

(** [class User]: id, email (unique), password, name. *)
Record User := mkUser {
  User_id : Z;
  email : string;
  password : string;
  name : string
}.

(** [class BlogPost]: [author_id] is a nullable foreign key to users.id,
    [title] is unique. *)
Record BlogPost := mkBlogPost {
  BlogPost_id : Z;
  BlogPost_author_id : option Z;
  title : string;
  subtitle : string;
  date : string;
  body : string;
  img_url : string
}.

(** [class Comment]: [author_id] and [blog_post_id] are declared without
    [nullable=False], so both foreign keys may be NULL ([None]). *)
Record Comment := mkComment {
  Comment_id : Z;
  Comment_author_id : option Z;
  Comment_blog_post_id : option Z;
  text : string
}.

(** The relational store after [db.create_all()]. *)
Record DB := mkDB {
  users : list User;
  blog_posts : list BlogPost;
  comments : list Comment
}.

Definition empty_db : DB := mkDB [] [] [].

(** ** Exceptions and the handler monad *)

Inductive Exn :=
| HTTPException (code : Z)          (* raised by abort(code) *)
| AttributeError (attr : string)    (* attribute missing on the object *)
| UnmappedInstanceError             (* session.delete on a non-mapped value *)
| IntegrityError (constraint : string).

Inductive Res (A : Type) :=
| Ok (a : A)
| Raise (e : Exn).
Arguments Ok {A} a.
Arguments Raise {A} e.

(** An object handed to [db.session.add]; its primary key is assigned by the
    database when the unit of work is flushed. *)
Inductive Entity :=
| EUser (u : User)
| EPost (p : BlogPost)
| EComment (c : Comment).

(** Entries of the session's unit of work. *)
Inductive Change :=
| Insert (e : Entity)
| Update (p : BlogPost)
| Delete (p : BlogPost).

(** The request context: committed store, the session's pending changes, the
    user id kept in the login session and the flashed messages. *)
Record Ctx := mkCtx {
  store : DB;
  pending : list Change;
  session_user : option Z;
  flashes : list string
}.

Definition M (A : Type) : Type := Ctx -> Res A * Ctx.

Definition ret {A} (a : A) : M A := fun c => (Ok a, c).

Definition bind {A B} (m : M A) (k : A -> M B) : M B :=
  fun c => match m c with
           | (Ok a, c') => k a c'
           | (Raise e, c') => (Raise e, c')
           end.

Definition raise {A} (e : Exn) : M A := fun c => (Raise e, c).

Notation "x <- m ;; k" := (bind m (fun x => k))
  (at level 61, m at next level, right associativity).
Notation "m ;; k" := (bind m (fun _ => k))
  (at level 61, right associativity).

Definition get_ctx : M Ctx := fun c => (Ok c, c).

(** [abort(code)] and [flash(message)] of Flask. *)
Definition abort {A} (code : Z) : M A := raise (HTTPException code).

Definition flash (msg : string) : M unit :=
  fun c => (Ok tt, mkCtx (store c) (pending c) (session_user c) (flashes c ++ [msg])).

(** ** The ORM layer *)

Module Orm.

(** Primary keys: one more than the largest key in the table. *)
Definition next_id (ids : list Z) : Z := 1 + fold_right Z.max 0 ids.

Definition email_taken (e : string) (db : DB) : bool :=
  existsb (fun u => String.eqb (email u) e) (users db).

Definition title_taken (t : string) (ps : list BlogPost) : bool :=
  existsb (fun p => String.eqb (title p) t) ps.

Definition nullify_parent (pid : Z) (c : Comment) : Comment :=
  match Comment_blog_post_id c with
  | Some q => if q =? pid
              then mkComment (Comment_id c) (Comment_author_id c) None (text c)
              else c
  | None => c
  end.

(** Flushing one change.  Unique columns raise [IntegrityError]; deleting a
    post whose [comments] relationship has no delete cascade sets the
    children's foreign key to NULL before the row is removed. *)
Definition flush (ch : Change) (db : DB) : Res DB :=
  match ch with
  | Insert (EUser u) =>
      if email_taken (email u) db then Raise (IntegrityError "users.email")
      else Ok (mkDB (users db ++ [mkUser (next_id (map User_id (users db)))
                                         (email u) (password u) (name u)])
                    (blog_posts db) (comments db))
  | Insert (EPost p) =>
      if title_taken (title p) (blog_posts db)
      then Raise (IntegrityError "blog_posts.title")
      else Ok (mkDB (users db)
                    (blog_posts db ++
                       [mkBlogPost (next_id (map BlogPost_id (blog_posts db)))
                                   (BlogPost_author_id p) (title p) (subtitle p)
                                   (date p) (body p) (img_url p)])
                    (comments db))
  | Insert (EComment c) =>
      Ok (mkDB (users db) (blog_posts db)
               (comments db ++
                  [mkComment (next_id (map Comment_id (comments db)))
                             (Comment_author_id c) (Comment_blog_post_id c) (text c)]))
  | Update p =>
      let others := filter (fun q => negb (BlogPost_id q =? BlogPost_id p)) (blog_posts db) in
      if title_taken (title p) others
      then Raise (IntegrityError "blog_posts.title")
      else Ok (mkDB (users db)
                    (map (fun q => if BlogPost_id q =? BlogPost_id p then p else q)
                         (blog_posts db))
                    (comments db))
  | Delete p =>
      Ok (mkDB (users db)
               (filter (fun q => negb (BlogPost_id q =? BlogPost_id p)) (blog_posts db))
               (map (nullify_parent (BlogPost_id p)) (comments db)))
  end.

Fixpoint flush_all (chs : list Change) (db : DB) : Res DB :=
  match chs with
  | [] => Ok db
  | ch :: rest =>
      match flush ch db with
      | Ok db' => flush_all rest db'
      | Raise e => Raise e
      end
  end.

(** [db.session.add(obj)]. *)
Definition session_add (e : Entity) : M unit :=
  fun c => (Ok tt, mkCtx (store c) (pending c ++ [Insert e]) (session_user c) (flashes c)).

(** Assigning attributes of a persistent object marks it dirty. *)
Definition session_dirty (p : BlogPost) : M unit :=
  fun c => (Ok tt, mkCtx (store c) (pending c ++ [Update p]) (session_user c) (flashes c)).

(** [db.session.delete(obj)]: [None] is not a mapped instance. *)
Definition session_delete (o : option BlogPost) : M unit :=
  match o with
  | None => raise UnmappedInstanceError
  | Some p =>
      fun c => (Ok tt, mkCtx (store c) (pending c ++ [Delete p]) (session_user c) (flashes c))
  end.

(** [db.session.commit()]: the pending changes are applied in one
    transaction; a failure rolls the transaction back and propagates. *)
Definition session_commit : M unit :=
  fun c => match flush_all (pending c) (store c) with
           | Ok db' => (Ok tt, mkCtx db' [] (session_user c) (flashes c))
           | Raise e => (Raise e, mkCtx (store c) [] (session_user c) (flashes c))
           end.

(** [User.query.get(id)], [BlogPost.query.get(id)]: the row with that
    primary key, or [None].  This is the lookup for keys the INTEGER column
    can hold (below 2^63); a larger key cannot be bound as a query parameter
    and the statements that depend on the answer of the lookup carry that
    bound. *)
Definition User_query_get (uid : Z) : M (option User) :=
  fun c => (Ok (find (fun u => User_id u =? uid) (users (store c))), c).

Definition BlogPost_query_get (pid : Z) : M (option BlogPost) :=
  fun c => (Ok (find (fun p => BlogPost_id p =? pid) (blog_posts (store c))), c).

(** [User.query.filter_by(email=e).first()]. *)
Definition User_query_filter_by_email_first (e : string) : M (option User) :=
  fun c => (Ok (find (fun u => String.eqb (email u) e) (users (store c))), c).

(** [BlogPost.query.all()]. *)
Definition BlogPost_query_all : M (list BlogPost) :=
  fun c => (Ok (blog_posts (store c)), c).

End Orm.

(** ** Requests, forms and identities *)

Inductive Method := GET | HEAD | POST | PUT | PATCH | DELETE | OPTIONS.

Definition Method_eqb (a b : Method) : bool :=
  match a, b with
  | GET, GET | HEAD, HEAD | POST, POST | PUT, PUT
  | PATCH, PATCH | DELETE, DELETE | OPTIONS, OPTIONS => true
  | _, _ => false
  end.

(** The URL rules registered with [@app.route]. *)
Inductive Path :=
| P_index                      (* /                    *)
| P_register                   (* /register            *)
| P_login                      (* /login               *)
| P_logout                     (* /logout              *)
| P_post (post_id : Z)         (* /post/<int:post_id>  *)
| P_about                      (* /about               *)
| P_contact                    (* /contact             *)
| P_new_post                   (* /new-post            *)
| P_edit_post (post_id : Z)    (* /edit-post/<int:post_id> *)
| P_delete (post_id : Z).      (* /delete/<int:post_id>    *)

(** The form classes of forms.py, as main.py names them. *)
Inductive FormClass := RegisterForm | LoginForm | CommentForm | CreatePostForm.

(** Submitted form data: the fields main.py reads through [form.<field>.data]. *)
Record FormData := mkFormData {
  email_data : string;
  password_data : string;
  name_data : string;
  comment_data : string;
  title_data : string;
  subtitle_data : string;
  img_url_data : string;
  body_data : string;
  author_data : option User
}.

(** A request, with the two values the handlers draw from the environment:
    the random salt of [generate_password_hash] and [date.today()] already
    formatted by [strftime("%B %d, %Y")]. *)
Record Request := mkRequest {
  method : Method;
  path : Path;
  form : FormData;
  salt : string;
  today : string
}.

Inductive Endpoint :=
| EP_login
| EP_get_all_posts
| EP_show_post (post_id : Z).

Inductive Response :=
| Render (template : string)
| Redirect (target : Endpoint)
| OptionsResponse.

(** HTTP status of what a view produced: an [HTTPException] carries its own
    code, any other uncaught exception is a 500. *)
Definition status (r : Res Response) : Z :=
  match r with
  | Ok (Redirect _) => 302
  | Ok _ => 200
  | Raise (HTTPException code) => code
  | Raise _ => 500
  end.

(** [current_user]: a mapped [User] or the anonymous sentinel. *)
Inductive Identity :=
| AnonymousUser
| LoggedIn (u : User).

Definition is_anonymous (i : Identity) : bool :=
  match i with AnonymousUser => true | LoggedIn _ => false end.

Definition is_authenticated (i : Identity) : bool := negb (is_anonymous i).

(** Libraries and modules main.py imports but which are not part of it:
    werkzeug's password functions (the salt drawn by the first is made an
    argument) and the validators of the form classes of forms.py. *)
Class Collaborators := {
  generate_password_hash : string -> string -> string;
  check_password_hash : string -> string -> bool;
  validate : FormClass -> FormData -> bool
}.

(** ** The application *)

Section App.

Context {ext : Collaborators}.

(** [form.validate_on_submit()]: the request is a submission (POST, PUT,
    PATCH or DELETE) and the form's validators accept the data. *)
Definition is_submitted (req : Request) : bool :=
  match method req with
  | POST | PUT | PATCH | DELETE => true
  | _ => false
  end.

Definition validate_on_submit (fc : FormClass) (req : Request) : bool :=
  is_submitted req && validate fc (form req).

(** [@login_manager.user_loader]. *)
Definition load_user (user_id : Z) : M (option User) :=
  Orm.User_query_get user_id.

(** The identity of the request: the session's user id resolved through
    [load_user]; an id that resolves to nothing is anonymous. *)
Definition current_user : M Identity :=
  c <- get_ctx ;;
  match session_user c with
  | None => ret AnonymousUser
  | Some uid =>
      u <- load_user uid ;;
      match u with
      | Some u => ret (LoggedIn u)
      | None => ret AnonymousUser
      end
  end.

(** The identity [current_user] resolves to in a context. *)
Definition identity (c : Ctx) : Identity :=
  match session_user c with
  | None => AnonymousUser
  | Some uid =>
      match find (fun u => User_id u =? uid) (users (store c)) with
      | Some u => LoggedIn u
      | None => AnonymousUser
      end
  end.

Definition identity_id (i : Identity) : option Z :=
  match i with
  | AnonymousUser => None
  | LoggedIn u => Some (User_id u)
  end.

Definition login_user (u : User) : M unit :=
  fun c => (Ok tt, mkCtx (store c) (pending c) (Some (User_id u)) (flashes c)).

Definition logout_user : M unit :=
  fun c => (Ok tt, mkCtx (store c) (pending c) None (flashes c)).

(** [@login_required]: with no login view configured, an unauthenticated
    request is answered by [abort(401)]. *)
Definition login_required {A} (func : A -> M Response) : A -> M Response :=
  fun args =>
    cu <- current_user ;;
    if is_authenticated cu then func args else abort 401.

(** Assigning [current_user] to a relationship attribute needs a mapped
    instance: the anonymous sentinel has no [_sa_instance_state]. *)
Definition mapped_instance (i : Identity) : M User :=
  match i with
  | LoggedIn u => ret u
  | AnonymousUser => raise (AttributeError "_sa_instance_state")
  end.

(** [admin_required(func)], lines 34-43. *)
Definition admin_required {A} (func : A -> M Response) : A -> M Response :=
  fun args =>
    cu <- current_user ;;
    match cu with
    | AnonymousUser => abort 403
    | LoggedIn u =>
        if User_id u =? 1 then func args
        else abort 403
    end.

(** [get_all_posts], lines 86-89. *)
Definition get_all_posts (_ : unit) : M Response :=
  posts <- Orm.BlogPost_query_all ;;
  ret (Render "index.html").

(** [register], lines 92-109. *)
Definition register (req : Request) : M Response :=
  let form := form req in
  if validate_on_submit RegisterForm req then
    let entered_email := email_data form in
    check_user <- Orm.User_query_filter_by_email_first entered_email ;;
    match check_user with
    | None =>
        let new_user :=
          mkUser 0 (email_data form)
                 (generate_password_hash (password_data form) (salt req))
                 (name_data form) in
        Orm.session_add (EUser new_user) ;;
        Orm.session_commit ;;
        flash "Please login with your new email and password."
    | Some _ =>
        flash "You've already signed up with that email. Please login instead."
    end ;;
    ret (Redirect EP_login)
  else ret (Render "register.html").

(** [login], lines 112-129. *)
Definition login (req : Request) : M Response :=
  let form := form req in
  if validate_on_submit LoginForm req then
    let user_email := email_data form in
    let user_pw := password_data form in
    user <- Orm.User_query_filter_by_email_first user_email ;;
    match user with
    | None =>
        flash "That email or password is not correct." ;;
        ret (Redirect EP_login)
    | Some user =>
        if check_password_hash (password user) user_pw then
          login_user user ;;
          ret (Redirect EP_get_all_posts)
        else
          flash "That email or password is not correct." ;;
          ret (Redirect EP_login)
    end
  else ret (Render "login.html").

(** [logout], lines 132-136 (the body under [@login_required]). *)
Definition logout (_ : unit) : M Response :=
  logout_user ;;
  ret (Redirect EP_get_all_posts).

(** [show_post], lines 139-151. *)
Definition show_post (req : Request) (post_id : Z) : M Response :=
  requested_post <- Orm.BlogPost_query_get post_id ;;
  if validate_on_submit CommentForm req then
    cu <- current_user ;;
    author <- mapped_instance cu ;;
    let new_comment :=
      mkComment 0 (Some (User_id author))
                (option_map BlogPost_id requested_post)
                (comment_data (form req)) in
    Orm.session_add (EComment new_comment) ;;
    Orm.session_commit ;;
    ret (Redirect (EP_show_post post_id))
  else ret (Render "post.html").

(** [about] and [contact], lines 154-161. *)
Definition about (_ : unit) : M Response := ret (Render "about.html").
Definition contact (_ : unit) : M Response := ret (Render "contact.html").

(** [add_new_post], lines 164-179: no decorator besides the route. *)
Definition add_new_post (req : Request) : M Response :=
  let form := form req in
  if validate_on_submit CreatePostForm req then
    cu <- current_user ;;
    author <- mapped_instance cu ;;
    let new_post :=
      mkBlogPost 0 (Some (User_id author)) (title_data form)
                 (subtitle_data form) (today req) (body_data form)
                 (img_url_data form) in
    Orm.session_add (EPost new_post) ;;
    Orm.session_commit ;;
    ret (Redirect EP_get_all_posts)
  else ret (Render "make-post.html").

(** [edit_post], lines 182-202 (the body under [@admin_required]); reading
    [post.title] of [None] raises. *)
Definition edit_post (req : Request) (post_id : Z) : M Response :=
  post <- Orm.BlogPost_query_get post_id ;;
  match post with
  | None => raise (AttributeError "title")
  | Some post =>
      let edit_form := form req in
      if validate_on_submit CreatePostForm req then
        let post' :=
          mkBlogPost (BlogPost_id post)
                     (option_map User_id (author_data edit_form))
                     (title_data edit_form) (subtitle_data edit_form)
                     (date post) (body_data edit_form)
                     (img_url_data edit_form) in
        Orm.session_dirty post' ;;
        Orm.session_commit ;;
        ret (Redirect (EP_show_post (BlogPost_id post)))
      else ret (Render "make-post.html")
  end.

(** [delete_post], lines 205-211 (the body under [@admin_required]). *)
Definition delete_post (post_id : Z) : M Response :=
  post_to_delete <- Orm.BlogPost_query_get post_id ;;
  Orm.session_delete post_to_delete ;;
  Orm.session_commit ;;
  ret (Redirect EP_get_all_posts).

(** The methods each rule answers: those listed in [methods=], GET when the
    argument is absent; HEAD comes with GET. *)
Definition route_methods (p : Path) : list Method :=
  match p with
  | P_register | P_login | P_post _ | P_new_post => [GET; POST]
  | _ => [GET]
  end.

Definition method_allowed (m : Method) (p : Path) : bool :=
  existsb (Method_eqb m) (route_methods p)
  || (Method_eqb m HEAD && existsb (Method_eqb GET) (route_methods p)).

(** The view function bound to each rule, decorators included. *)
Definition view (req : Request) : M Response :=
  match path req with
  | P_index => get_all_posts tt
  | P_register => register req
  | P_login => login req
  | P_logout => login_required logout tt
  | P_post post_id => show_post req post_id
  | P_about => about tt
  | P_contact => contact tt
  | P_new_post => add_new_post req
  | P_edit_post post_id => admin_required (edit_post req) post_id
  | P_delete post_id => admin_required delete_post post_id
  end.

(** Routing: OPTIONS is answered automatically, a method the rule does not
    list is a 405, otherwise the view runs. *)
Definition dispatch (req : Request) : M Response :=
  if Method_eqb (method req) OPTIONS then ret OptionsResponse
  else if method_allowed (method req) (path req) then view req
  else abort 405.

(** One request against the store [db] with login session [sess]; the
    session's uncommitted changes are dropped when the request ends. *)
Record Outcome := mkOutcome {
  result : Res Response;
  db_after : DB;
  session_after : option Z;
  flashed : list string
}.

Definition handle (req : Request) (db : DB) (sess : option Z) : Outcome :=
  let (r, c) := dispatch req (mkCtx db [] sess []) in
  mkOutcome r (store c) (session_user c) (flashes c).

(** Stores reachable from the empty one by any sequence of requests, each
    under any login session. *)
Inductive reachable : DB -> Prop :=
| reach_init : reachable empty_db
| reach_step : forall db req sess,
    reachable db -> reachable (db_after (handle req db sess)).

(** A run of requests of one client: the session is threaded through. *)
Fixpoint run (reqs : list Request) (db : DB) (sess : option Z) : DB * option Z :=
  match reqs with
  | [] => (db, sess)
  | req :: rest =>
      let o := handle req db sess in
      run rest (db_after o) (session_after o)
  end.

End App.

(** ** A concrete instance of the collaborators

    Used to run the application on concrete requests: the credential is the
    salt and the password joined by a dollar sign, and every form validates. *)

Module Sample.

Definition hash (pw s : string) : string :=
  String.append s (String.append "$" pw).

Definition check (pwhash pw : string) : bool :=
  let n := String.length pw in
  String.eqb (substring (String.length pwhash - n) n pwhash) pw.

#[export] Instance collaborators : Collaborators := {
  generate_password_hash := hash;
  check_password_hash := check;
  validate := fun _ _ => true
}.

Definition blank : FormData := mkFormData "" "" "" "" "" "" "" "" None.

Definition register_form (e pw n : string) : FormData :=
  mkFormData e pw n "" "" "" "" "" None.

Definition login_form (e pw : string) : FormData :=
  mkFormData e pw "" "" "" "" "" "" None.

Definition comment_form (t : string) : FormData :=
  mkFormData "" "" "" t "" "" "" "" None.

Definition post_form (t sub img b : string) : FormData :=
  mkFormData "" "" "" "" t sub img b None.

Definition request (m : Method) (p : Path) (f : FormData) : Request :=
  mkRequest m p f "Xy12aB9q" "November 03, 2026".

(** Two accounts: the first registered user (id 1) and a second one (id 2). *)
Definition two_users : DB :=
  fst (run [request POST P_register (register_form "admin@blog.org" "root" "Ada");
            request POST P_register (register_form "bob@mail.org" "hunter2" "Bob")]
           empty_db None).

(** The same store with one post, written by the administrator. *)
Definition one_post : DB :=
  fst (run [request POST P_login (login_form "admin@blog.org" "root");
            request POST P_new_post (post_form "Hello World" "first" "h.png" "Hi.")]
           two_users None).

(** The same store after the second user commented on the post. *)
Definition commented : DB :=
  fst (run [request POST P_login (login_form "bob@mail.org" "hunter2");
            request POST (P_post 1) (comment_form "Nice post")]
           one_post None).

Definition bob : User := mkUser 2 "bob@mail.org" "Xy12aB9q$hunter2" "Bob".

End Sample.

(** ** Vocabulary of the specification *)

(** The store invariants of section 3 of the specification. *)

Definition author_exists (db : DB) (c : Comment) : Prop :=
  exists u, In u (users db) /\ Comment_author_id c = Some (User_id u).

Definition parent_exists (db : DB) (c : Comment) : Prop :=
  exists p, In p (blog_posts db) /\ Comment_blog_post_id c = Some (BlogPost_id p).

(** Every comment references an existing user and an existing post. *)
Definition comments_referenced (db : DB) : Prop :=
  forall c, In c (comments db) -> author_exists db c /\ parent_exists db c.

(** Every comment references an existing user; its parent reference is NULL
    or an existing post. *)
Definition comments_anchored (db : DB) : Prop :=
  forall c, In c (comments db) ->
    author_exists db c /\ (Comment_blog_post_id c = None \/ parent_exists db c).

Definition unique_keys (db : DB) : Prop :=
  NoDup (map User_id (users db)) /\ NoDup (map BlogPost_id (blog_posts db)).

Definition unique_emails (db : DB) : Prop := NoDup (map email (users db)).

Definition unique_titles (db : DB) : Prop := NoDup (map title (blog_posts db)).

Definition count_title (t : string) (db : DB) : nat :=
  List.length (filter (fun p => String.eqb (title p) t) (blog_posts db)).

(** What one request may do to the store: nothing, or flush one change whose
    references were read from the store itself. *)
Definition admissible (db : DB) (ch : Change) : Prop :=
  match ch with
  | Insert (EUser _) => True
  | Insert (EPost p) =>
      exists u, In u (users db) /\ BlogPost_author_id p = Some (User_id u)
  | Insert (EComment c) =>
      author_exists db c /\ (Comment_blog_post_id c = None \/ parent_exists db c)
  | Update _ => False
  | Delete p => In p (blog_posts db)
  end.

Definition store_step (db db' : DB) : Prop :=
  db' = db \/ exists ch, admissible db ch /\ Orm.flush ch db = Ok db'.

Definition invariant (db : DB) : Prop :=
  unique_keys db /\ unique_emails db /\ unique_titles db /\ comments_anchored db.

(** [User.query.filter_by(email=e).first()] as a function of the store. *)
Definition user_with_email (db : DB) (e : string) : option User :=
  find (fun u => String.eqb (email u) e) (users db).

(** The notices of section 7 as the code flashes them. *)
Definition DuplicateEmail_notice : string :=
  "You've already signed up with that email. Please login instead.".

Definition InvalidCredentials_notice : string :=
  "That email or password is not correct.".


(** Every post's author is the id of an existing user. *)
Definition posts_anchored (db : DB) : Prop :=
  forall p, In p (blog_posts db) ->
    exists u, In u (users db) /\ BlogPost_author_id p = Some (User_id u).

(** The users table carries the keys 1, 2, ..., n in registration order. *)
Definition dense_user_keys (db : DB) : Prop :=
  map User_id (users db) = map Z.of_nat (seq 1 (List.length (users db))).

(** The identity [admin_required] lets through. *)
Definition is_admin (i : Identity) : bool :=
  match i with
  | AnonymousUser => false
  | LoggedIn u => User_id u =? 1
  end.

(** A login session is valid when it is empty or holds the id of a user. *)
Definition session_valid (db : DB) (sess : option Z) : Prop :=
  match sess with
  | None => True
  | Some uid => exists u, In u (users db) /\ User_id u = uid
  end.

(** The writes a request can make, by route and identity. *)
Section Effects.

Context {ext : Collaborators}.

Inductive effect (req : Request) (db : DB) (i : Identity) : DB -> Prop :=
| eff_none : effect req db i db
| eff_register (u : User) :
    path req = P_register ->
    validate_on_submit RegisterForm req = true ->
    effect req db i (mkDB (users db ++ [u]) (blog_posts db) (comments db))
| eff_new_post (p : BlogPost) (u : User) :
    path req = P_new_post ->
    validate_on_submit CreatePostForm req = true ->
    i = LoggedIn u ->
    effect req db i (mkDB (users db) (blog_posts db ++ [p]) (comments db))
| eff_comment (pid : Z) (c : Comment) (u : User) :
    path req = P_post pid ->
    validate_on_submit CommentForm req = true ->
    i = LoggedIn u ->
    effect req db i (mkDB (users db) (blog_posts db) (comments db ++ [c]))
| eff_delete (pid : Z) (p : BlogPost) :
    path req = P_delete pid ->
    is_admin i = true ->
    In p (blog_posts db) ->
    effect req db i
           (mkDB (users db)
                 (filter (fun q => negb (BlogPost_id q =? BlogPost_id p))
                         (blog_posts db))
                 (map (Orm.nullify_parent (BlogPost_id p)) (comments db))).

End Effects.

(** * Properties *)

(** ** List facts used by the store lemmas *)

Lemma find_none_existsb {A} (f : A -> bool) (l : list A) :
  find f l = None -> existsb f l = false.
Proof.
  induction l as [|a l IH]; simpl; [reflexivity|].
  destruct (f a); [discriminate | exact IH].
Qed.

Lemma fold_max_upper (ids : list Z) (x : Z) :
  In x ids -> x <= fold_right Z.max 0 ids.
Proof.
  induction ids as [|y ids IH]; simpl; [tauto|].
  intros [->|H]; [lia | specialize (IH H); lia].
Qed.

Lemma next_id_fresh (ids : list Z) : ~ In (Orm.next_id ids) ids.
Proof.
  unfold Orm.next_id. intro H. apply fold_max_upper in H. lia.
Qed.

Lemma NoDup_snoc {A} (l : list A) (a : A) :
  NoDup l -> ~ In a l -> NoDup (l ++ [a]).
Proof.
  induction l as [|b l IH]; simpl; intros Hnd Hin.
  - constructor; [tauto | constructor].
  - inversion Hnd as [|? ? Hb Hl]; subst. constructor.
    + rewrite in_app_iff. simpl. intros [H|[H|[]]]; [tauto | subst; tauto].
    + apply IH; tauto.
Qed.

Lemma NoDup_map_filter {A B} (f : A -> B) (g : A -> bool) (l : list A) :
  NoDup (map f l) -> NoDup (map f (filter g l)).
Proof.
  induction l as [|a l IH]; simpl; intros Hnd; [constructor|].
  inversion Hnd as [|? ? Ha Hl]; subst.
  destruct (g a); simpl; [constructor|]; auto.
  intro H. apply Ha. rewrite in_map_iff in *.
  destruct H as [x [Hx Hin]]. exists x. split; [exact Hx|].
  apply filter_In in Hin. tauto.
Qed.

Section Properties.

Context {ext : Collaborators}.

(** ** Running the monad *)

Lemma current_user_run (c : Ctx) : current_user c = (Ok (identity c), c).
Proof.
  unfold current_user, identity, bind, get_ctx, load_user, Orm.User_query_get, ret.
  destruct (session_user c) as [uid|]; [|reflexivity].
  destruct (find _ _); reflexivity.
Qed.

Lemma identity_in_store (c : Ctx) (u : User) :
  identity c = LoggedIn u -> In u (users (store c)).
Proof.
  unfold identity. destruct (session_user c) as [uid|]; [|discriminate].
  destruct (find _ _) as [v|] eqn:E; [|discriminate].
  intros [= <-]. apply find_some in E. tauto.
Qed.

Lemma admin_required_run {A} (func : A -> M Response) (args : A) (c : Ctx) :
  admin_required func args c =
  match identity c with
  | AnonymousUser => (Raise (HTTPException 403), c)
  | LoggedIn u => if User_id u =? 1 then func args c
                  else (Raise (HTTPException 403), c)
  end.
Proof.
  unfold admin_required, bind. rewrite current_user_run.
  destruct (identity c) as [|u]; [reflexivity|].
  destruct (User_id u =? 1); reflexivity.
Qed.

(** ** What each view does to the store *)

Ltac run_view :=
  unfold bind, ret, raise, abort, flash, get_ctx,
    Orm.User_query_filter_by_email_first, Orm.BlogPost_query_get,
    Orm.BlogPost_query_all, Orm.session_add, Orm.session_dirty,
    Orm.session_commit, login_user, logout_user, mapped_instance; simpl.

Lemma store_step_refl (db : DB) : store_step db db.
Proof. left; reflexivity. Qed.

Lemma register_step (req : Request) (db : DB) (s : option Z) (fl : list string) :
  store_step db (store (snd (register req (mkCtx db [] s fl)))).
Proof.
  unfold register. destruct (validate_on_submit RegisterForm req);
    [|apply store_step_refl].
  run_view. destruct (find _ (users db)) as [u|] eqn:E; simpl;
    [apply store_step_refl|].
  apply find_none_existsb in E.
  unfold Orm.email_taken. simpl. rewrite E. simpl.
  right.
  exists (Insert (EUser
            (mkUser 0 (email_data (form req))
               (generate_password_hash (password_data (form req)) (salt req))
               (name_data (form req))))).
  split; [exact I|].
  simpl. unfold Orm.email_taken. simpl. rewrite E. reflexivity.
Qed.

Lemma login_step (req : Request) (db : DB) (s : option Z) (fl : list string) :
  store_step db (store (snd (login req (mkCtx db [] s fl)))).
Proof.
  unfold login. destruct (validate_on_submit LoginForm req);
    [|apply store_step_refl].
  run_view. destruct (find _ (users db)) as [u|]; simpl;
    [|apply store_step_refl].
  destruct (check_password_hash _ _); apply store_step_refl.
Qed.

Lemma show_post_step (req : Request) (pid : Z) (db : DB) (s : option Z)
      (fl : list string) :
  store_step db (store (snd (show_post req pid (mkCtx db [] s fl)))).
Proof.
  unfold show_post, bind at 1. unfold Orm.BlogPost_query_get at 1.
  destruct (validate_on_submit CommentForm req); [|apply store_step_refl].
  unfold bind at 1. rewrite current_user_run.
  destruct (identity _) as [|u] eqn:Eu; [apply store_step_refl|].
  apply identity_in_store in Eu. simpl in Eu.
  run_view. right.
  exists (Insert (EComment
            (mkComment 0 (Some (User_id u))
               (option_map BlogPost_id
                  (find (fun p => BlogPost_id p =? pid) (blog_posts db)))
               (comment_data (form req))))).
  split; [|reflexivity].
  simpl. split.
  - exists u. split; [exact Eu | reflexivity].
  - unfold parent_exists. simpl.
    destruct (find _ (blog_posts db)) as [p|] eqn:E; [right | left; reflexivity].
    apply find_some in E. exists p. split; [tauto | reflexivity].
Qed.

Lemma add_new_post_step (req : Request) (db : DB) (s : option Z)
      (fl : list string) :
  store_step db (store (snd (add_new_post req (mkCtx db [] s fl)))).
Proof.
  unfold add_new_post.
  destruct (validate_on_submit CreatePostForm req); [|apply store_step_refl].
  unfold bind at 1. rewrite current_user_run.
  destruct (identity _) as [|u] eqn:Eu; [apply store_step_refl|].
  apply identity_in_store in Eu. simpl in Eu.
  run_view.
  destruct (Orm.title_taken (title_data (form req)) (blog_posts db)) eqn:E;
    simpl; [apply store_step_refl|].
  right.
  exists (Insert (EPost
            (mkBlogPost 0 (Some (User_id u)) (title_data (form req))
               (subtitle_data (form req)) (today req) (body_data (form req))
               (img_url_data (form req))))).
  split.
  - simpl. exists u. split; [exact Eu | reflexivity].
  - simpl. rewrite E. reflexivity.
Qed.

Lemma delete_post_step (pid : Z) (db : DB) (s : option Z) (fl : list string) :
  store_step db (store (snd (delete_post pid (mkCtx db [] s fl)))).
Proof.
  unfold delete_post. run_view.
  destruct (find _ (blog_posts db)) as [p|] eqn:E; simpl;
    [|apply store_step_refl].
  right. exists (Delete p). split; [|reflexivity].
  simpl. apply find_some in E. tauto.
Qed.

Lemma admin_required_step {A} (func : A -> M Response) (args : A) (c : Ctx) :
  store_step (store c) (store (snd (func args c))) ->
  store_step (store c) (store (snd (admin_required func args c))).
Proof.
  intros H. rewrite admin_required_run.
  destruct (identity c) as [|u]; [apply store_step_refl|].
  destruct (User_id u =? 1); [exact H | apply store_step_refl].
Qed.

(** Under a method that is not a submission, [edit_post] only reads. *)
Lemma edit_post_reads (req : Request) (pid : Z) (c : Ctx) :
  is_submitted req = false -> snd (edit_post req pid c) = c.
Proof.
  intros Hs. unfold edit_post, validate_on_submit. rewrite Hs. run_view.
  destruct (find _ _); reflexivity.
Qed.

Lemma db_after_handle (req : Request) (db : DB) (s : option Z) :
  db_after (handle req db s) = store (snd (dispatch req (mkCtx db [] s []))).
Proof. unfold handle. destruct (dispatch req _); reflexivity. Qed.

Lemma edit_post_route_not_submitted (req : Request) (pid : Z) :
  path req = P_edit_post pid ->
  Method_eqb (method req) OPTIONS = false ->
  method_allowed (method req) (path req) = true ->
  is_submitted req = false.
Proof.
  intros Hp Ho Ha. rewrite Hp in Ha. unfold is_submitted.
  destruct (method req); try reflexivity; discriminate.
Qed.

(** Every request moves the store by at most one admissible change. *)
Lemma handle_step (req : Request) (db : DB) (s : option Z) :
  store_step db (db_after (handle req db s)).
Proof.
  rewrite db_after_handle. unfold dispatch.
  destruct (Method_eqb (method req) OPTIONS) eqn:Ho; [apply store_step_refl|].
  destruct (method_allowed (method req) (path req)) eqn:Ha;
    [|apply store_step_refl].
  unfold view. destruct (path req) as [| | | |pid| | | |pid|pid] eqn:Hp;
    try apply store_step_refl.
  - apply register_step.
  - apply login_step.
  - unfold login_required, bind. rewrite current_user_run.
    destruct (is_authenticated _); apply store_step_refl.
  - apply show_post_step.
  - apply add_new_post_step.
  - apply (admin_required_step (edit_post req) pid (mkCtx db [] s [])).
    rewrite edit_post_reads; [apply store_step_refl|].
    apply (edit_post_route_not_submitted req pid); rewrite ?Hp; auto.
  - apply (admin_required_step delete_post pid (mkCtx db [] s [])).
    apply delete_post_step.
Qed.

(** ** The store invariant *)

Lemma existsb_eqb_not_in {A} (f : A -> string) (e : string) (l : list A) :
  existsb (fun x => String.eqb (f x) e) l = false -> ~ In e (map f l).
Proof.
  induction l as [|a l IH]; simpl; [tauto|].
  intros H. apply orb_false_iff in H. destruct H as [Ha Hl].
  apply String.eqb_neq in Ha. intros [E|E]; [congruence | exact (IH Hl E)].
Qed.

Lemma not_in_existsb_eqb {A} (f : A -> string) (e : string) (l : list A) :
  In e (map f l) -> existsb (fun x => String.eqb (f x) e) l = true.
Proof.
  intros H. apply in_map_iff in H. destruct H as [x [Hx Hin]].
  apply existsb_exists. exists x. split; [exact Hin|].
  apply String.eqb_eq. exact Hx.
Qed.

Lemma author_exists_mono (db db' : DB) (c : Comment) :
  incl (users db) (users db') -> author_exists db c -> author_exists db' c.
Proof.
  intros Hi [u [Hu E]]. exists u. split; [apply Hi; exact Hu | exact E].
Qed.

Lemma parent_exists_mono (db db' : DB) (c : Comment) :
  incl (blog_posts db) (blog_posts db') -> parent_exists db c -> parent_exists db' c.
Proof.
  intros Hi [q [Hq E]]. exists q. split; [apply Hi; exact Hq | exact E].
Qed.

Lemma comments_anchored_mono (db db' : DB) :
  incl (users db) (users db') ->
  incl (blog_posts db) (blog_posts db') ->
  comments db' = comments db ->
  comments_anchored db -> comments_anchored db'.
Proof.
  intros Hu Hp Hc H c Hin. rewrite Hc in Hin.
  destruct (H c Hin) as [Ha Hb]. split.
  - eapply author_exists_mono; eauto.
  - destruct Hb as [Hb|Hb]; [left; exact Hb | right].
    eapply parent_exists_mono; eauto.
Qed.

Lemma flush_insert_user_invariant (db : DB) (u : User) :
  invariant db -> Orm.email_taken (email u) db = false ->
  invariant (mkDB (users db ++ [mkUser (Orm.next_id (map User_id (users db)))
                                       (email u) (password u) (name u)])
                  (blog_posts db) (comments db)).
Proof.
  intros [[Hku Hkp] [He [Ht Hc]]] Hfree.
  unfold invariant, unique_keys, unique_emails, unique_titles. simpl.
  rewrite !map_app. simpl. split; [split | split; [|split]].
  - apply NoDup_snoc; [exact Hku | apply next_id_fresh].
  - exact Hkp.
  - apply NoDup_snoc; [exact He|].
    apply existsb_eqb_not_in. exact Hfree.
  - exact Ht.
  - apply (comments_anchored_mono db); simpl; auto using incl_refl.
    apply incl_appl, incl_refl.
Qed.

Lemma flush_insert_post_invariant (db : DB) (p : BlogPost) :
  invariant db -> Orm.title_taken (title p) (blog_posts db) = false ->
  invariant (mkDB (users db)
                  (blog_posts db ++
                     [mkBlogPost (Orm.next_id (map BlogPost_id (blog_posts db)))
                                 (BlogPost_author_id p) (title p) (subtitle p)
                                 (date p) (body p) (img_url p)])
                  (comments db)).
Proof.
  intros [[Hku Hkp] [He [Ht Hc]]] Hfree.
  unfold invariant, unique_keys, unique_emails, unique_titles. simpl.
  rewrite !map_app. simpl. split; [split | split; [|split]].
  - exact Hku.
  - apply NoDup_snoc; [exact Hkp | apply next_id_fresh].
  - exact He.
  - apply NoDup_snoc; [exact Ht|].
    apply existsb_eqb_not_in. exact Hfree.
  - apply (comments_anchored_mono db); simpl; auto using incl_refl.
    apply incl_appl, incl_refl.
Qed.

Lemma flush_insert_comment_invariant (db : DB) (c : Comment) :
  invariant db ->
  author_exists db c ->
  Comment_blog_post_id c = None \/ parent_exists db c ->
  invariant (mkDB (users db) (blog_posts db)
                  (comments db ++
                     [mkComment (Orm.next_id (map Comment_id (comments db)))
                                (Comment_author_id c) (Comment_blog_post_id c)
                                (text c)])).
Proof.
  intros [Hk [He [Ht Hc]]] Ha Hp.
  unfold invariant. split; [exact Hk | split; [exact He | split; [exact Ht|]]].
  intros c' Hin. simpl in Hin. apply in_app_iff in Hin.
  destruct Hin as [Hin|[<-|[]]].
  - destruct (Hc c' Hin) as [Ha' Hp']. split; [exact Ha'|].
    destruct Hp' as [Hp'|Hp']; [left | right]; assumption.
  - split; [exact Ha|]. destruct Hp as [Hp|Hp]; [left | right]; assumption.
Qed.

Lemma flush_delete_invariant (db : DB) (p : BlogPost) :
  invariant db ->
  invariant (mkDB (users db)
                  (filter (fun q => negb (BlogPost_id q =? BlogPost_id p))
                          (blog_posts db))
                  (map (Orm.nullify_parent (BlogPost_id p)) (comments db))).
Proof.
  intros [[Hku Hkp] [He [Ht Hc]]].
  unfold invariant, unique_keys, unique_emails, unique_titles. simpl.
  split; [split | split; [|split]];
    try assumption; try (apply NoDup_map_filter; assumption).
  intros c' Hin. simpl in Hin. apply in_map_iff in Hin.
  destruct Hin as [c [<- Hin]]. destruct (Hc c Hin) as [Ha Hp].
  unfold Orm.nullify_parent.
  destruct (Comment_blog_post_id c) as [q|] eqn:Eq.
  - destruct (q =? BlogPost_id p) eqn:E.
    + split; [exact Ha | left; reflexivity].
    + split; [exact Ha | right].
      destruct Hp as [Hp|[r [Hr Er]]]; [congruence|].
      exists r. simpl. split; [|exact Er].
      apply filter_In. split; [exact Hr|].
      rewrite Eq in Er. injection Er as ->. rewrite E. reflexivity.
  - split; [exact Ha | left; exact Eq].
Qed.

Lemma store_step_invariant (db db' : DB) :
  invariant db -> store_step db db' -> invariant db'.
Proof.
  intros Hinv [->|[ch [Hadm Hfl]]]; [exact Hinv|].
  destruct ch as [[u|p|c]|p|p]; simpl in Hfl, Hadm.
  - destruct (Orm.email_taken (email u) db) eqn:E; [discriminate|].
    injection Hfl as <-. apply flush_insert_user_invariant; assumption.
  - destruct (Orm.title_taken (title p) (blog_posts db)) eqn:E; [discriminate|].
    injection Hfl as <-. apply flush_insert_post_invariant; assumption.
  - injection Hfl as <-. apply flush_insert_comment_invariant; tauto.
  - contradiction.
  - injection Hfl as <-. apply flush_delete_invariant; assumption.
Qed.

Lemma empty_db_invariant : invariant empty_db.
Proof.
  unfold invariant, unique_keys, unique_emails, unique_titles, comments_anchored.
  simpl.
  split; [split; constructor | split; [constructor | split; [constructor|]]].
  intros c' [].
Qed.

Lemma reachable_invariant (db : DB) : reachable db -> invariant db.
Proof.
  induction 1 as [|db req sess Hr IH].
  - exact empty_db_invariant.
  - exact (store_step_invariant _ _ IH (handle_step req db sess)).
Qed.

Lemma run_reachable (reqs : list Request) :
  forall db s, reachable db -> reachable (fst (run reqs db s)).
Proof.
  induction reqs as [|req reqs IH]; simpl; intros db s Hr; [exact Hr|].
  apply IH. apply reach_step. exact Hr.
Qed.

Lemma filter_title_absent (t : string) (l : list BlogPost) :
  ~ In t (map title l) -> filter (fun p => String.eqb (title p) t) l = [].
Proof.
  induction l as [|a l IH]; simpl; intros H; [reflexivity|].
  destruct (String.eqb (title a) t) eqn:E.
  - apply String.eqb_eq in E. tauto.
  - apply IH. tauto.
Qed.

Lemma count_title_one (t : string) (db : DB) :
  unique_titles db -> In t (map title (blog_posts db)) -> count_title t db = 1%nat.
Proof.
  unfold unique_titles, count_title.
  induction (blog_posts db) as [|a l IH]; simpl; intros Hnd Hin; [contradiction|].
  inversion Hnd as [|? ? Ha Hl]; subst.
  destruct (String.eqb (title a) t) eqn:E.
  - apply String.eqb_eq in E. subst t. simpl.
    rewrite filter_title_absent; [reflexivity | exact Ha].
  - apply String.eqb_neq in E. destruct Hin as [Hin|Hin]; [congruence|].
    apply IH; assumption.
Qed.

(** ** The access check *)

(** C7: in every request context, [admin_required] hands the request to the
    guarded view exactly when the current identity is not anonymous and its
    id is 1; in every other case the outcome is [abort(403)] whatever the
    guarded view is, with the context untouched, so the view was not run. *)
Theorem admin_required_grants_iff_admin (c : Ctx) :
  ((forall A (func : A -> M Response) (args : A),
       admin_required func args c = func args c)
   <-> (identity c <> AnonymousUser /\ identity_id (identity c) = Some 1))
  /\ (~ (identity c <> AnonymousUser /\ identity_id (identity c) = Some 1) ->
      forall A (func : A -> M Response) (args : A),
        admin_required func args c = (Raise (HTTPException 403), c)).
Proof.
  split; [split|].
  - intros H. specialize (H unit (fun _ => ret (Render "granted")) tt).
    rewrite admin_required_run in H. unfold ret in H.
    destruct (identity c) as [|u]; [discriminate|]. simpl.
    destruct (User_id u =? 1) eqn:E; [|discriminate].
    apply Z.eqb_eq in E. split; [discriminate | congruence].
  - intros [Hna Hid] A func args. rewrite admin_required_run.
    destruct (identity c) as [|u]; [congruence|].
    simpl in Hid. injection Hid as ->. reflexivity.
  - intros Hn A func args. rewrite admin_required_run.
    destruct (identity c) as [|u]; [reflexivity|].
    destruct (User_id u =? 1) eqn:E; [|reflexivity].
    exfalso. apply Hn. apply Z.eqb_eq in E. simpl.
    split; [discriminate | congruence].
Qed.

(** ** The unguarded views *)

(** [add_new_post] serves any logged-in user: the id is never compared. *)
Lemma add_new_post_any_user (req : Request) (db : DB) (sess : option Z) (u : User) :
  path req = P_new_post -> method req = POST ->
  validate CreatePostForm (form req) = true ->
  identity (mkCtx db [] sess []) = LoggedIn u ->
  Orm.title_taken (title_data (form req)) (blog_posts db) = false ->
  result (handle req db sess) = Ok (Redirect EP_get_all_posts)
  /\ blog_posts (db_after (handle req db sess)) =
     blog_posts db ++
       [mkBlogPost (Orm.next_id (map BlogPost_id (blog_posts db)))
                   (Some (User_id u)) (title_data (form req))
                   (subtitle_data (form req)) (today req)
                   (body_data (form req)) (img_url_data (form req))].
Proof.
  intros Hp Hm Hv Hu Hfree.
  unfold handle, dispatch, view. rewrite Hp, Hm. simpl.
  unfold add_new_post, validate_on_submit, is_submitted. rewrite Hm, Hv. simpl.
  unfold bind. rewrite current_user_run, Hu. run_view.
  rewrite Hfree. simpl. split; reflexivity.
Qed.

(** No request of an anonymous visitor changes the comments table. *)
Lemma anonymous_never_comments (req : Request) (db : DB) (sess : option Z) :
  identity (mkCtx db [] sess []) = AnonymousUser ->
  comments (db_after (handle req db sess)) = comments db.
Proof.
  intros Ha. rewrite db_after_handle. unfold dispatch.
  destruct (Method_eqb (method req) OPTIONS); [reflexivity|].
  destruct (method_allowed (method req) (path req)); [|reflexivity].
  unfold view. destruct (path req) as [| | | |pid| | | |pid|pid];
    try reflexivity.
  - unfold register. destruct (validate_on_submit RegisterForm req);
      [|reflexivity].
    run_view. destruct (find _ (users db)); simpl; [reflexivity|].
    destruct (Orm.email_taken _ db); reflexivity.
  - unfold login. destruct (validate_on_submit LoginForm req); [|reflexivity].
    run_view. destruct (find _ (users db)); simpl; [|reflexivity].
    destruct (check_password_hash _ _); reflexivity.
  - unfold login_required, bind. rewrite current_user_run, Ha. reflexivity.
  - unfold show_post, bind. unfold Orm.BlogPost_query_get at 1.
    destruct (validate_on_submit CommentForm req); [|reflexivity].
    rewrite current_user_run, Ha. reflexivity.
  - unfold add_new_post.
    destruct (validate_on_submit CreatePostForm req); [|reflexivity].
    unfold bind. rewrite current_user_run, Ha. reflexivity.
  - rewrite admin_required_run, Ha. reflexivity.
  - rewrite admin_required_run, Ha. reflexivity.
Qed.

(** [delete_post] for the administrator and an id the key column can hold:
    an id without a post raises out of [db.session.delete]; an id with a
    post removes that post. *)
Lemma delete_post_outcome (req : Request) (pid : Z) (db : DB) (sess : option Z)
      (u : User) :
  0 <= pid < 2 ^ 63 ->
  path req = P_delete pid -> method req = GET ->
  identity (mkCtx db [] sess []) = LoggedIn u -> User_id u = 1 ->
  match find (fun p => BlogPost_id p =? pid) (blog_posts db) with
  | None =>
      result (handle req db sess) = Raise UnmappedInstanceError
      /\ db_after (handle req db sess) = db
  | Some p =>
      result (handle req db sess) = Ok (Redirect EP_get_all_posts)
      /\ blog_posts (db_after (handle req db sess)) =
         filter (fun q => negb (BlogPost_id q =? BlogPost_id p)) (blog_posts db)
  end.
Proof.
  intros _ Hp Hm Hu Hid.
  unfold handle, dispatch, view. rewrite Hp, Hm. simpl.
  rewrite admin_required_run, Hu, Hid. simpl.
  unfold delete_post. run_view.
  destruct (find _ (blog_posts db)); simpl; split; reflexivity.
Qed.

(** ** Registration and login *)

(** C6: a submitted, valid registration with an email some user already has
    leaves the store as it is and flashes the duplicate-email notice; with an
    email no user has, the users table gains exactly one row, carrying that
    email, the name, a fresh id and the credential
    [generate_password_hash(password)], and nothing else changes. *)
Theorem register_duplicate_or_fresh (req : Request) (db : DB) (sess : option Z) :
  path req = P_register ->
  method req = POST ->
  validate RegisterForm (form req) = true ->
  let o := handle req db sess in
  let e := email_data (form req) in
  ((exists u, In u (users db) /\ email u = e) ->
     db_after o = db
     /\ flashed o = [DuplicateEmail_notice]
     /\ result o = Ok (Redirect EP_login))
  /\ ((forall u, In u (users db) -> email u <> e) ->
      exists new,
        db_after o = mkDB (users db ++ [new]) (blog_posts db) (comments db)
        /\ email new = e
        /\ password new = generate_password_hash (password_data (form req)) (salt req)
        /\ name new = name_data (form req)
        /\ ~ In (User_id new) (map User_id (users db))
        /\ flashed o = ["Please login with your new email and password."]
        /\ result o = Ok (Redirect EP_login)).
Proof.
  intros Hp Hm Hv o e. subst o e.
  unfold handle, dispatch, view. rewrite Hp, Hm. simpl.
  unfold register, validate_on_submit, is_submitted. rewrite Hm, Hv. simpl.
  run_view. split.
  - intros [u [Hin He]].
    destruct (find _ (users db)) as [v|] eqn:E; simpl.
    + repeat split; reflexivity.
    + exfalso. eapply find_none in E; [|exact Hin].
      simpl in E. apply String.eqb_neq in E. congruence.
  - intros Hfresh.
    destruct (find _ (users db)) as [v|] eqn:E; simpl.
    + apply find_some in E. destruct E as [Hin E].
      apply String.eqb_eq in E. exfalso. exact (Hfresh v Hin E).
    + apply find_none_existsb in E. unfold Orm.email_taken. simpl.
      rewrite E. simpl. eexists. split; [reflexivity|]. simpl.
      repeat split; try reflexivity. apply next_id_fresh.
Qed.

(** C5: in any store, a valid login submission whose email no user has and
    one whose email belongs to a user but whose password the credential check
    rejects end in the same outcome: nobody is logged in, the store is
    untouched, the response is the redirect to the login page and the one
    flashed message is the same invalid-credentials notice. *)
Theorem login_failures_indistinguishable
        (req1 req2 : Request) (db : DB) (sess : option Z) (u : User) :
  path req1 = P_login -> method req1 = POST ->
  validate LoginForm (form req1) = true ->
  path req2 = P_login -> method req2 = POST ->
  validate LoginForm (form req2) = true ->
  user_with_email db (email_data (form req1)) = None ->
  user_with_email db (email_data (form req2)) = Some u ->
  check_password_hash (password u) (password_data (form req2)) = false ->
  handle req1 db sess = handle req2 db sess
  /\ handle req1 db sess =
     mkOutcome (Ok (Redirect EP_login)) db sess [InvalidCredentials_notice].
Proof.
  unfold user_with_email.
  intros Hp1 Hm1 Hv1 Hp2 Hm2 Hv2 Hnone Hsome Hbad.
  assert (H1 : handle req1 db sess =
               mkOutcome (Ok (Redirect EP_login)) db sess [InvalidCredentials_notice]).
  { unfold handle, dispatch, view. rewrite Hp1, Hm1. simpl.
    unfold login, validate_on_submit, is_submitted. rewrite Hm1, Hv1. simpl.
    run_view. rewrite Hnone. reflexivity. }
  assert (H2 : handle req2 db sess =
               mkOutcome (Ok (Redirect EP_login)) db sess [InvalidCredentials_notice]).
  { unfold handle, dispatch, view. rewrite Hp2, Hm2. simpl.
    unfold login, validate_on_submit, is_submitted. rewrite Hm2, Hv2. simpl.
    run_view. rewrite Hsome, Hbad. reflexivity. }
  split; [congruence | exact H1].
Qed.

(** ** Relational invariants *)

(** C3, as the code has it: in every reachable store the primary keys of
    users and of posts are pairwise distinct, every comment's author is the
    id of an existing user, and every comment's parent reference is either
    NULL or the id of an existing post. *)
Theorem reachable_comments_anchored (db : DB) :
  reachable db -> unique_keys db /\ comments_anchored db.
Proof.
  intros Hr. destruct (reachable_invariant db Hr) as [Hk [_ [_ Hc]]].
  split; assumption.
Qed.

(** X20: titles are pairwise distinct in every reachable store; there, a
    valid POST to /new-post whose title some post already has leaves the
    store unchanged with exactly one post of that title, flashes nothing,
    keeps the session, and ends in an uncaught exception: the [IntegrityError]
    of the unique constraint on the title when the current identity is a
    user, the [AttributeError] of the author assignment when it is
    anonymous. *)
Theorem titles_stay_unique (db : DB) :
  reachable db ->
  unique_titles db
  /\ forall (req : Request) (sess : option Z),
       path req = P_new_post ->
       method req = POST ->
       validate CreatePostForm (form req) = true ->
       In (title_data (form req)) (map title (blog_posts db)) ->
       let o := handle req db sess in
       db_after o = db
       /\ count_title (title_data (form req)) (db_after o) = 1%nat
       /\ flashed o = []
       /\ session_after o = sess
       /\ result o =
          Raise (if is_authenticated (identity (mkCtx db [] sess []))
                 then IntegrityError "blog_posts.title"
                 else AttributeError "_sa_instance_state").
Proof.
  intros Hr. destruct (reachable_invariant db Hr) as [_ [_ [Ht _]]].
  split; [exact Ht|].
  intros req sess Hp Hm Hv Hin o.
  assert (Hc := count_title_one _ db Ht Hin).
  apply not_in_existsb_eqb in Hin.
  assert (H : o = mkOutcome
                    (Raise (if is_authenticated (identity (mkCtx db [] sess []))
                            then IntegrityError "blog_posts.title"
                            else AttributeError "_sa_instance_state"))
                    db sess []).
  { subst o. unfold handle, dispatch, view. rewrite Hp, Hm. simpl.
    unfold add_new_post, validate_on_submit, is_submitted. rewrite Hm, Hv. simpl.
    unfold bind. rewrite current_user_run.
    destruct (identity _) as [|u]; simpl; [reflexivity|].
    run_view. unfold Orm.title_taken. rewrite Hin. reflexivity. }
  rewrite H. simpl.
  split; [reflexivity | split; [exact Hc | repeat split]].
Qed.

(** ** The edit route *)

(** C10: a request to /edit-post/<id>, whatever its method, identity and
    form data, leaves the store as it was; the rule lists GET only, no method
    the rule answers counts as a form submission, and under GET
    [validate_on_submit] is false, so the branch that commits is not taken. *)
Theorem edit_post_route_leaves_store_unchanged
        (m : Method) (pid : Z) (f : FormData) (sa t : string)
        (db : DB) (sess : option Z) :
  db_after (handle (mkRequest m (P_edit_post pid) f sa t) db sess) = db
  /\ route_methods (P_edit_post pid) = [GET]
  /\ method_allowed m (P_edit_post pid)
      && is_submitted (mkRequest m (P_edit_post pid) f sa t) = false
  /\ validate_on_submit CreatePostForm (mkRequest GET (P_edit_post pid) f sa t)
      = false.
Proof.
  split; [|split; [reflexivity | split; [destruct m; reflexivity | reflexivity]]].
  rewrite db_after_handle. unfold dispatch. simpl.
  destruct (Method_eqb m OPTIONS) eqn:Ho; [reflexivity|].
  destruct (method_allowed m (P_edit_post pid)) eqn:Ha; [|reflexivity].
  unfold view. simpl. rewrite admin_required_run.
  destruct (identity _) as [|u]; [reflexivity|].
  destruct (User_id u =? 1); [|reflexivity].
  rewrite edit_post_reads; [reflexivity|].
  destruct m; try reflexivity; discriminate.
Qed.

End Properties.

(** * Further properties of the views *)

Lemma NoDup_map_inj {A B} (f : A -> B) (l : list A) (a b : A) :
  NoDup (map f l) -> In a l -> In b l -> f a = f b -> a = b.
Proof.
  induction l as [|x l IH]; simpl; intros Hnd Ha Hb E; [contradiction|].
  inversion Hnd as [|? ? Hx Hl]; subst.
  destruct Ha as [->|Ha], Hb as [->|Hb]; auto.
  - exfalso. apply Hx. rewrite E. apply in_map. exact Hb.
  - exfalso. apply Hx. rewrite <- E. apply in_map. exact Ha.
Qed.

Section Views.

Context {ext : Collaborators}.

Ltac run_view :=
  unfold bind, ret, raise, abort, flash, get_ctx,
    Orm.User_query_filter_by_email_first, Orm.BlogPost_query_get,
    Orm.BlogPost_query_all, Orm.session_add, Orm.session_dirty,
    Orm.session_commit, Orm.session_delete, login_user, logout_user,
    mapped_instance; simpl.

Ltac run_handle :=
  unfold handle, dispatch, view; simpl.

(** ** Login, logout and the session *)

Lemma login_accept_run (f : FormData) (sa t : string) (db : DB)
      (sess : option Z) (u : User) :
  validate LoginForm f = true ->
  find (fun v => String.eqb (email v) (email_data f)) (users db) = Some u ->
  check_password_hash (password u) (password_data f) = true ->
  handle (mkRequest POST P_login f sa t) db sess =
  mkOutcome (Ok (Redirect EP_get_all_posts)) db (Some (User_id u)) [].
Proof.
  intros Hv Hu Hc. run_handle.
  unfold login, validate_on_submit. simpl. rewrite Hv. simpl.
  run_view. rewrite Hu, Hc. reflexivity.
Qed.

(** X1: a valid login submission whose email belongs to a user and whose
    password the credential check accepts binds the session to that user's
    id and redirects to the post list; the store is untouched and nothing is
    flashed.  The session then resolves to that user whenever the user's id
    is the first of its kind in the table. *)
Theorem login_success (f : FormData) (sa t : string) (db : DB)
        (sess : option Z) (u : User) :
  validate LoginForm f = true ->
  user_with_email db (email_data f) = Some u ->
  check_password_hash (password u) (password_data f) = true ->
  let o := handle (mkRequest POST P_login f sa t) db sess in
  o = mkOutcome (Ok (Redirect EP_get_all_posts)) db (Some (User_id u)) []
  /\ (unique_keys db ->
      identity (mkCtx (db_after o) [] (session_after o) []) = LoggedIn u).
Proof.
  intros Hv Hu Hc o. subst o.
  rewrite (login_accept_run f sa t db sess u Hv Hu Hc).
  split; [reflexivity|]. intros [Hk _]. unfold identity. simpl.
  apply find_some in Hu. destruct Hu as [Hin _].
  destruct (find _ (users db)) as [v|] eqn:E.
  - apply find_some in E. destruct E as [Hv' E]. apply Z.eqb_eq in E.
    f_equal. eapply NoDup_map_inj; eauto.
  - eapply find_none in E; [|exact Hin]. simpl in E.
    rewrite Z.eqb_refl in E. discriminate.
Qed.

(** X3: /logout clears the session of an authenticated identity and
    redirects to the post list; for an anonymous one it is [abort(401)] and
    the session is left as it was.  The store is untouched either way. *)
Theorem logout_outcome (f : FormData) (sa t : string) (db : DB) (sess : option Z) :
  handle (mkRequest GET P_logout f sa t) db sess =
  if is_authenticated (identity (mkCtx db [] sess []))
  then mkOutcome (Ok (Redirect EP_get_all_posts)) db None []
  else mkOutcome (Raise (HTTPException 401)) db sess [].
Proof.
  run_handle. unfold login_required, bind. rewrite current_user_run.
  destruct (is_authenticated _); reflexivity.
Qed.

(** ** Lookups after a write *)

Lemma find_all_false {A} (f : A -> bool) (l : list A) :
  (forall x, In x l -> f x = false) -> find f l = None.
Proof.
  induction l as [|a l IH]; simpl; intros H; [reflexivity|].
  rewrite (H a (or_introl eq_refl)). apply IH. intros x Hx. apply H. tauto.
Qed.

Lemma find_app_none {A} (f : A -> bool) (l l' : list A) :
  find f l = None -> find f (l ++ l') = find f l'.
Proof.
  induction l as [|a l IH]; simpl; [reflexivity|].
  destruct (f a); [discriminate | exact IH].
Qed.

Lemma find_fresh_key {A} (key : A -> Z) (l : list A) :
  find (fun a => key a =? Orm.next_id (map key l)) l = None.
Proof.
  apply find_all_false. intros x Hx. apply Z.eqb_neq. intros E.
  apply (next_id_fresh (map key l)). rewrite <- E. apply in_map. exact Hx.
Qed.

Lemma find_filter_out (pid : Z) (l : list BlogPost) :
  find (fun q => BlogPost_id q =? pid)
       (filter (fun q => negb (BlogPost_id q =? pid)) l) = None.
Proof.
  apply find_all_false. intros x Hx. apply filter_In in Hx.
  destruct Hx as [_ Hx]. apply negb_true_iff in Hx. exact Hx.
Qed.

Lemma register_fresh_run (f : FormData) (sa t : string) (db : DB) (sess : option Z) :
  validate RegisterForm f = true ->
  user_with_email db (email_data f) = None ->
  handle (mkRequest POST P_register f sa t) db sess =
  mkOutcome (Ok (Redirect EP_login))
            (mkDB (users db ++
                     [mkUser (Orm.next_id (map User_id (users db))) (email_data f)
                             (generate_password_hash (password_data f) sa)
                             (name_data f)])
                  (blog_posts db) (comments db))
            sess ["Please login with your new email and password."].
Proof.
  unfold user_with_email. intros Hv Hn. run_handle.
  unfold register, validate_on_submit. simpl. rewrite Hv. simpl.
  run_view. rewrite Hn. simpl. apply find_none_existsb in Hn.
  unfold Orm.email_taken. simpl. rewrite Hn. reflexivity.
Qed.

Lemma register_taken_run (f : FormData) (sa t : string) (db : DB)
      (sess : option Z) (v : User) :
  validate RegisterForm f = true ->
  user_with_email db (email_data f) = Some v ->
  handle (mkRequest POST P_register f sa t) db sess =
  mkOutcome (Ok (Redirect EP_login)) db sess [DuplicateEmail_notice].
Proof.
  unfold user_with_email. intros Hv Hs. run_handle.
  unfold register, validate_on_submit. simpl. rewrite Hv. simpl.
  run_view. rewrite Hs. reflexivity.
Qed.

(** X2: registering with an email no user has and then logging in with the
    same email and password, when the credential check accepts the
    credential made from that password, ends with the session bound to the
    new account, and that session resolves to the new user. *)
Theorem register_then_login (f g : FormData) (sa t sa' t' : string)
        (db : DB) (sess : option Z) :
  validate RegisterForm f = true ->
  validate LoginForm g = true ->
  email_data g = email_data f ->
  password_data g = password_data f ->
  user_with_email db (email_data f) = None ->
  check_password_hash (generate_password_hash (password_data f) sa)
                      (password_data f) = true ->
  let new := mkUser (Orm.next_id (map User_id (users db))) (email_data f)
                    (generate_password_hash (password_data f) sa) (name_data f) in
  let end_ := run [mkRequest POST P_register f sa t;
                   mkRequest POST P_login g sa' t'] db sess in
  end_ = (mkDB (users db ++ [new]) (blog_posts db) (comments db),
          Some (User_id new))
  /\ identity (mkCtx (fst end_) [] (snd end_) []) = LoggedIn new.
Proof.
  intros Hvf Hvg He Hp Hfresh Hcheck new end_.
  assert (Hfind : user_with_email
                    (mkDB (users db ++ [new]) (blog_posts db) (comments db))
                    (email_data g) = Some new).
  { unfold user_with_email in *. simpl. rewrite He.
    rewrite find_app_none by exact Hfresh. simpl.
    rewrite String.eqb_refl. reflexivity. }
  assert (Hend : end_ = (mkDB (users db ++ [new]) (blog_posts db) (comments db),
                         Some (User_id new))).
  { subst end_. unfold run. rewrite (register_fresh_run f sa t db sess Hvf Hfresh).
    cbv [db_after session_after]. fold new.
    rewrite (login_accept_run g sa' t' _ sess new Hvg Hfind);
      [reflexivity | simpl; rewrite Hp; exact Hcheck]. }
  split; [exact Hend|]. rewrite Hend. unfold identity. simpl.
  rewrite find_app_none by apply (find_fresh_key User_id). simpl.
  rewrite Z.eqb_refl. reflexivity.
Qed.

(** X18: after a registration with a fresh email succeeded, a second valid
    registration with the same email, whatever its name and password, adds
    nothing: the store stays as the first one left it and the duplicate
    notice is flashed. *)
Theorem register_twice (f g : FormData) (sa t sa' t' : string)
        (db : DB) (sess sess' : option Z) :
  validate RegisterForm f = true ->
  validate RegisterForm g = true ->
  email_data g = email_data f ->
  user_with_email db (email_data f) = None ->
  let db1 := db_after (handle (mkRequest POST P_register f sa t) db sess) in
  List.length (users db1) = S (List.length (users db))
  /\ handle (mkRequest POST P_register g sa' t') db1 sess' =
     mkOutcome (Ok (Redirect EP_login)) db1 sess' [DuplicateEmail_notice].
Proof.
  intros Hvf Hvg He Hfresh db1. subst db1.
  rewrite (register_fresh_run f sa t db sess Hvf Hfresh). simpl. split.
  - rewrite length_app. simpl. lia.
  - eapply register_taken_run; [exact Hvg|].
    unfold user_with_email in *. simpl. rewrite He.
    rewrite find_app_none by exact Hfresh. simpl.
    rewrite String.eqb_refl. reflexivity.
Qed.

(** ** What a request can write *)

Lemma handle_effect (req : Request) (db : DB) (sess : option Z) :
  effect req db (identity (mkCtx db [] sess [])) (db_after (handle req db sess)).
Proof.
  rewrite db_after_handle. unfold dispatch.
  destruct (Method_eqb (method req) OPTIONS) eqn:Ho; [apply eff_none|].
  destruct (method_allowed (method req) (path req)) eqn:Ha; [|apply eff_none].
  unfold view. destruct (path req) as [| | | |pid| | | |pid|pid] eqn:Hp;
    try apply eff_none.
  - unfold register.
    destruct (validate_on_submit RegisterForm req) eqn:Hv; [|apply eff_none].
    run_view. destruct (find _ (users db)); simpl; [apply eff_none|].
    destruct (Orm.email_taken _ db); simpl; [apply eff_none|].
    apply eff_register; assumption.
  - unfold login. destruct (validate_on_submit LoginForm req); [|apply eff_none].
    run_view. destruct (find _ (users db)); simpl; [|apply eff_none].
    destruct (check_password_hash _ _); apply eff_none.
  - unfold login_required, bind. rewrite current_user_run.
    destruct (is_authenticated _); apply eff_none.
  - unfold show_post, bind, Orm.BlogPost_query_get.
    destruct (validate_on_submit CommentForm req) eqn:Hv; [|apply eff_none].
    rewrite current_user_run.
    destruct (identity _) as [|u] eqn:Hu; [apply eff_none|].
    run_view. eapply eff_comment; eauto.
  - unfold add_new_post.
    destruct (validate_on_submit CreatePostForm req) eqn:Hv; [|apply eff_none].
    unfold bind. rewrite current_user_run.
    destruct (identity _) as [|u] eqn:Hu; [apply eff_none|].
    run_view. destruct (Orm.title_taken _ _); simpl; [apply eff_none|].
    eapply eff_new_post; eauto.
  - rewrite admin_required_run.
    destruct (identity _) as [|u]; [apply eff_none|].
    destruct (User_id u =? 1); [|apply eff_none].
    rewrite edit_post_reads; [apply eff_none|].
    apply (edit_post_route_not_submitted req pid); rewrite ?Hp; auto.
  - rewrite admin_required_run.
    destruct (identity _) as [|u] eqn:Hu; [apply eff_none|].
    destruct (User_id u =? 1) eqn:Hid; [|apply eff_none].
    unfold delete_post. run_view.
    destruct (find _ (blog_posts db)) as [p|] eqn:Ef; simpl; [|apply eff_none].
    apply find_some in Ef. eapply eff_delete; [exact Hp | exact Hid | tauto].
Qed.

(** X4: no request removes or alters a user: the users table after a
    request is the table before it, followed by at most one new row. *)
Theorem users_only_grow (req : Request) (db : DB) (sess : option Z) :
  exists l, users (db_after (handle req db sess)) = users db ++ l
            /\ (List.length l <= 1)%nat.
Proof.
  destruct (handle_effect req db sess); simpl;
    try (exists []; rewrite app_nil_r; split; [reflexivity | simpl; lia]).
  exists [u]. split; [reflexivity | simpl; lia].
Qed.

(** X6: without a valid form submission a request changes the store only
    on the /delete route: for every other route the store after the request
    is the store before it. *)
Theorem no_submission_no_write (req : Request) (db : DB) (sess : option Z) :
  (forall fc, validate_on_submit fc req = false) ->
  (forall pid, path req <> P_delete pid) ->
  db_after (handle req db sess) = db.
Proof.
  intros Hv Hp. destruct (handle_effect req db sess); try reflexivity;
    try (rewrite Hv in *; discriminate).
  exfalso. eapply Hp; eauto.
Qed.

(** X7: a request whose identity is not the administrator never removes or
    alters a post or a comment: both tables keep their rows, in order, and
    gain at most one row between them. *)
Theorem non_admin_only_appends (req : Request) (db : DB) (sess : option Z) :
  is_admin (identity (mkCtx db [] sess [])) = false ->
  exists lp lc,
    blog_posts (db_after (handle req db sess)) = blog_posts db ++ lp
    /\ comments (db_after (handle req db sess)) = comments db ++ lc
    /\ (List.length lp + List.length lc <= 1)%nat.
Proof.
  intros Hna. destruct (handle_effect req db sess); simpl.
  - exists [], []. rewrite !app_nil_r. auto.
  - exists [], []. rewrite !app_nil_r. auto.
  - exists [p], []. rewrite app_nil_r. auto.
  - exists [], [c]. rewrite app_nil_r. auto.
  - congruence.
Qed.

(** X16: a request of an anonymous visitor leaves posts and comments as
    they are; the only table it can change is users. *)
Theorem anonymous_changes_only_users (req : Request) (db : DB) (sess : option Z) :
  identity (mkCtx db [] sess []) = AnonymousUser ->
  blog_posts (db_after (handle req db sess)) = blog_posts db
  /\ comments (db_after (handle req db sess)) = comments db.
Proof.
  intros Ha. destruct (handle_effect req db sess) as [| | | |pid p Hp Hadm];
    simpl; auto; try congruence.
  rewrite Ha in Hadm. discriminate.
Qed.

(** ** The session across requests *)

Lemma session_after_handle (req : Request) (db : DB) (s : option Z) :
  session_after (handle req db s) =
  session_user (snd (dispatch req (mkCtx db [] s []))).
Proof. unfold handle. destruct (dispatch req _); reflexivity. Qed.

Lemma handle_session (req : Request) (db : DB) (sess : option Z) :
  session_after (handle req db sess) = sess
  \/ (path req = P_logout /\ session_after (handle req db sess) = None)
  \/ (path req = P_login /\
      exists u,
        find (fun v => String.eqb (email v) (email_data (form req))) (users db)
        = Some u
        /\ check_password_hash (password u) (password_data (form req)) = true
        /\ session_after (handle req db sess) = Some (User_id u)).
Proof.
  rewrite session_after_handle. unfold dispatch.
  destruct (Method_eqb (method req) OPTIONS) eqn:Ho; [left; reflexivity|].
  destruct (method_allowed (method req) (path req)) eqn:Ha; [|left; reflexivity].
  unfold view. destruct (path req) as [| | | |pid| | | |pid|pid] eqn:Hp;
    try (left; reflexivity).
  - unfold register.
    destruct (validate_on_submit RegisterForm req); [|left; reflexivity].
    run_view. destruct (find _ (users db)); simpl; [left; reflexivity|].
    destruct (Orm.email_taken _ db); left; reflexivity.
  - unfold login. destruct (validate_on_submit LoginForm req); [|left; reflexivity].
    run_view. destruct (find _ (users db)) as [u|] eqn:Eu; simpl;
      [|left; reflexivity].
    destruct (check_password_hash _ _) eqn:Ec; [|left; reflexivity].
    right; right. split; [reflexivity|]. exists u. auto.
  - unfold login_required, bind. rewrite current_user_run.
    destruct (is_authenticated _); [right; left; auto | left; reflexivity].
  - unfold show_post, bind, Orm.BlogPost_query_get.
    destruct (validate_on_submit CommentForm req); [|left; reflexivity].
    rewrite current_user_run.
    destruct (identity _); left; reflexivity.
  - unfold add_new_post.
    destruct (validate_on_submit CreatePostForm req); [|left; reflexivity].
    unfold bind. rewrite current_user_run.
    destruct (identity _); [left; reflexivity|].
    run_view. destruct (Orm.title_taken _ _); left; reflexivity.
  - rewrite admin_required_run.
    destruct (identity _) as [|u]; [left; reflexivity|].
    destruct (User_id u =? 1); [|left; reflexivity].
    rewrite edit_post_reads; [left; reflexivity|].
    apply (edit_post_route_not_submitted req pid); rewrite ?Hp; auto.
  - rewrite admin_required_run.
    destruct (identity _) as [|u]; [left; reflexivity|].
    destruct (User_id u =? 1); [|left; reflexivity].
    unfold delete_post. run_view.
    destruct (find _ (blog_posts db)); left; reflexivity.
Qed.

(** X12: a request leaves the login session as it was, unless it is a
    /logout, which empties it, or a /login whose email belongs to a user
    whose credential the check accepts for the submitted password, which
    binds it to that user's id.  No other route, and no login without an
    accepted password, ever sets the session. *)
Theorem session_set_only_by_login (req : Request) (db : DB) (sess : option Z) :
  let o := handle req db sess in
  session_after o = sess
  \/ (path req = P_logout /\ session_after o = None)
  \/ (path req = P_login /\
      exists u,
        user_with_email db (email_data (form req)) = Some u
        /\ check_password_hash (password u) (password_data (form req)) = true
        /\ session_after o = Some (User_id u)).
Proof. exact (handle_session req db sess). Qed.

(** X19: a valid session stays valid: if the session is empty or holds the
    id of a user of the store, the same is true of the session and the store
    the request leaves behind, so [load_user] never meets a missing id. *)
Theorem session_stays_valid (req : Request) (db : DB) (sess : option Z) :
  session_valid db sess ->
  session_valid (db_after (handle req db sess))
                (session_after (handle req db sess)).
Proof.
  intros Hv.
  assert (Hmono : forall u, In u (users db) ->
                            In u (users (db_after (handle req db sess)))).
  { intros u Hu. destruct (handle_effect req db sess); simpl; auto.
    apply in_or_app. left. exact Hu. }
  destruct (handle_session req db sess) as [E|[[_ E]|[_ [u [Hf [_ E]]]]]];
    rewrite E.
  - destruct sess as [uid|]; [|exact I].
    destruct Hv as [u [Hu Hid]]. exists u. auto.
  - exact I.
  - apply find_some in Hf. exists u. split; [apply Hmono; tauto | reflexivity].
Qed.

(** ** More store invariants *)

Lemma fold_max_snoc (l : list Z) (x : Z) :
  fold_right Z.max 0 (l ++ [x]) = Z.max x (fold_right Z.max 0 l).
Proof.
  induction l as [|a l IH]; simpl; [reflexivity|]. rewrite IH. lia.
Qed.

Lemma next_id_dense (n : nat) :
  Orm.next_id (map Z.of_nat (seq 1 n)) = Z.of_nat (S n).
Proof.
  unfold Orm.next_id.
  assert (H : fold_right Z.max 0 (map Z.of_nat (seq 1 n)) = Z.of_nat n).
  { induction n as [|n IH]; [reflexivity|].
    rewrite seq_S, map_app.
    change (map Z.of_nat [(1 + n)%nat]) with [Z.of_nat (S n)].
    rewrite fold_max_snoc, IH. lia. }
  rewrite H. lia.
Qed.

Lemma store_step_dense (db db' : DB) :
  dense_user_keys db -> store_step db db' -> dense_user_keys db'.
Proof.
  unfold dense_user_keys.
  intros Hd [->|[ch [_ Hfl]]]; [exact Hd|].
  destruct ch as [[u|p|c]|p|p]; simpl in Hfl.
  - destruct (Orm.email_taken (email u) db); [discriminate|].
    injection Hfl as <-. simpl.
    rewrite map_app, length_app. simpl. rewrite Nat.add_1_r, seq_S, map_app.
    change (map Z.of_nat [(1 + List.length (users db))%nat])
      with [Z.of_nat (S (List.length (users db)))].
    rewrite <- next_id_dense, <- Hd. reflexivity.
  - destruct (Orm.title_taken (title p) (blog_posts db)); [discriminate|].
    injection Hfl as <-. exact Hd.
  - injection Hfl as <-. exact Hd.
  - destruct (Orm.title_taken _ _); [discriminate|].
    injection Hfl as <-. exact Hd.
  - injection Hfl as <-. exact Hd.
Qed.

(** X11: in every reachable store the users carry the ids 1, 2, ..., n in
    the order they registered (ids being one more than the largest key), so
    the account [admin_required] lets through is the one registered first. *)
Theorem reachable_dense_user_keys (db : DB) :
  reachable db ->
  dense_user_keys db
  /\ forall u rest, users db = u :: rest -> User_id u = 1.
Proof.
  intros Hr.
  assert (Hd : dense_user_keys db).
  { induction Hr as [|db req sess Hr IH]; [reflexivity|].
    exact (store_step_dense _ _ IH (handle_step req db sess)). }
  split; [exact Hd|]. intros u rest E. unfold dense_user_keys in Hd.
  rewrite E in Hd. simpl in Hd. injection Hd as Hu _. exact Hu.
Qed.

Lemma store_step_posts_anchored (db db' : DB) :
  posts_anchored db -> store_step db db' -> posts_anchored db'.
Proof.
  intros Hp [->|[ch [Hadm Hfl]]]; [exact Hp|].
  destruct ch as [[u|p|c]|p|p]; simpl in Hfl, Hadm.
  - destruct (Orm.email_taken (email u) db); [discriminate|].
    injection Hfl as <-. intros q Hq. simpl in Hq.
    destruct (Hp q Hq) as [v [Hv E]]. exists v. simpl.
    split; [apply in_or_app; left; exact Hv | exact E].
  - destruct (Orm.title_taken (title p) (blog_posts db)); [discriminate|].
    injection Hfl as <-. intros q Hq. simpl in Hq. apply in_app_iff in Hq.
    destruct Hq as [Hq|[<-|[]]]; [exact (Hp q Hq)|]. exact Hadm.
  - injection Hfl as <-. exact Hp.
  - contradiction.
  - injection Hfl as <-. intros q Hq. simpl in Hq. apply filter_In in Hq.
    apply Hp. tauto.
Qed.

(** X17: in every reachable store every post has an author, and the
    author is the id of an existing user. *)
Theorem reachable_posts_anchored (db : DB) :
  reachable db -> posts_anchored db.
Proof.
  induction 1 as [|db req sess Hr IH]; [intros p []|].
  exact (store_step_posts_anchored _ _ IH (handle_step req db sess)).
Qed.

(** X5: emails are pairwise distinct in every reachable store, and because
    [register] looks the email up before it adds the user, a request to
    /register under a method the rule answers never ends in an exception:
    the unique constraint on the email is never what stops it. *)
Theorem emails_stay_unique (db : DB) :
  reachable db ->
  unique_emails db
  /\ forall (m : Method) (f : FormData) (sa t : string) (sess : option Z),
       method_allowed m P_register = true ->
       exists r, result (handle (mkRequest m P_register f sa t) db sess) = Ok r.
Proof.
  intros Hr. destruct (reachable_invariant db Hr) as [_ [He _]].
  split; [exact He|]. intros m f sa t sess Ha.
  unfold handle, dispatch. simpl. rewrite Ha.
  destruct (Method_eqb m OPTIONS); [eexists; reflexivity|].
  unfold view. simpl. unfold register.
  destruct (validate_on_submit RegisterForm _); [|eexists; reflexivity].
  run_view. destruct (find _ (users db)) eqn:E; simpl; [eexists; reflexivity|].
  apply find_none_existsb in E. unfold Orm.email_taken. simpl. rewrite E.
  eexists; reflexivity.
Qed.

(** ** Posts and comments *)

(** X8: for an id the INTEGER key column can hold (0 <= id < 2^63), a valid
    comment submission by a logged-in user on /post/<id> adds exactly one
    comment, with a fresh id, that user as author, the submitted text and as
    parent the post [BlogPost.query.get(id)] returned (NULL when there is no
    such post); users and posts are untouched and the response redirects to
    the same post page. *)
Theorem comment_bound_to_identity (pid : Z) (f : FormData) (sa t : string)
        (db : DB) (sess : option Z) (u : User) :
  0 <= pid < 2 ^ 63 ->
  validate CommentForm f = true ->
  identity (mkCtx db [] sess []) = LoggedIn u ->
  let o := handle (mkRequest POST (P_post pid) f sa t) db sess in
  let new := mkComment (Orm.next_id (map Comment_id (comments db)))
                       (Some (User_id u))
                       (option_map BlogPost_id
                          (find (fun p => BlogPost_id p =? pid) (blog_posts db)))
                       (comment_data f) in
  result o = Ok (Redirect (EP_show_post pid))
  /\ db_after o = mkDB (users db) (blog_posts db) (comments db ++ [new])
  /\ ~ In (Comment_id new) (map Comment_id (comments db))
  /\ session_after o = sess.
Proof.
  intros _ Hv Hu o new.
  assert (H : o = mkOutcome (Ok (Redirect (EP_show_post pid)))
                            (mkDB (users db) (blog_posts db) (comments db ++ [new]))
                            sess []).
  { subst o new. run_handle.
    unfold show_post, validate_on_submit. simpl. rewrite Hv. simpl.
    unfold bind, Orm.BlogPost_query_get.
    rewrite current_user_run, Hu. run_view. reflexivity. }
  rewrite H. simpl.
  split; [reflexivity | split; [reflexivity | split; [|reflexivity]]].
  apply next_id_fresh.
Qed.

(** X10: a valid /new-post submission by a logged-in user with a title no
    post has appends one post; looking its id up in the new store returns
    it, and it carries the submitted title, the request's date, the user as
    author and an id no earlier post has. *)
Theorem create_then_get (f : FormData) (sa t : string) (db : DB)
        (sess : option Z) (u : User) :
  validate CreatePostForm f = true ->
  identity (mkCtx db [] sess []) = LoggedIn u ->
  Orm.title_taken (title_data f) (blog_posts db) = false ->
  let db' := db_after (handle (mkRequest POST P_new_post f sa t) db sess) in
  exists p,
    blog_posts db' = blog_posts db ++ [p]
    /\ find (fun q => BlogPost_id q =? BlogPost_id p) (blog_posts db') = Some p
    /\ title p = title_data f
    /\ date p = t
    /\ BlogPost_author_id p = Some (User_id u)
    /\ ~ In (BlogPost_id p) (map BlogPost_id (blog_posts db)).
Proof.
  intros Hv Hu Hfree db'.
  destruct (add_new_post_any_user (mkRequest POST P_new_post f sa t) db sess u
              eq_refl eq_refl Hv Hu Hfree) as [_ Hposts].
  subst db'. rewrite Hposts. simpl. eexists. split; [reflexivity|].
  simpl. split.
  - rewrite find_app_none by apply (find_fresh_key BlogPost_id).
    simpl. rewrite Z.eqb_refl. reflexivity.
  - repeat split. apply next_id_fresh.
Qed.

(** X9: when the administrator deletes an existing post, looking the id
    up afterwards returns nothing, every post with another id is kept, the
    users are untouched, and no comment is removed: the table keeps its
    length and no comment refers to the deleted id any more. *)
Theorem delete_then_get (pid : Z) (f : FormData) (sa t : string) (db : DB)
        (sess : option Z) (p : BlogPost) :
  is_admin (identity (mkCtx db [] sess [])) = true ->
  find (fun q => BlogPost_id q =? pid) (blog_posts db) = Some p ->
  let o := handle (mkRequest GET (P_delete pid) f sa t) db sess in
  result o = Ok (Redirect EP_get_all_posts)
  /\ find (fun q => BlogPost_id q =? pid) (blog_posts (db_after o)) = None
  /\ (forall q, In q (blog_posts db) -> BlogPost_id q <> pid ->
                In q (blog_posts (db_after o)))
  /\ users (db_after o) = users db
  /\ List.length (comments (db_after o)) = List.length (comments db)
  /\ (forall c, In c (comments (db_after o)) ->
                Comment_blog_post_id c <> Some pid).
Proof.
  intros Ha Hp o.
  assert (Hid : BlogPost_id p = pid).
  { apply find_some in Hp. destruct Hp as [_ E]. apply Z.eqb_eq in E. exact E. }
  assert (H : o = mkOutcome (Ok (Redirect EP_get_all_posts))
                    (mkDB (users db)
                          (filter (fun q => negb (BlogPost_id q =? pid)) (blog_posts db))
                          (map (Orm.nullify_parent pid) (comments db)))
                    sess []).
  { subst o. run_handle. rewrite admin_required_run.
    destruct (identity _) as [|u]; [discriminate|]. simpl in Ha. rewrite Ha.
    unfold delete_post. run_view. rewrite Hp. simpl. rewrite Hid. reflexivity. }
  rewrite H. simpl.
  split; [reflexivity | split; [apply find_filter_out | split; [|split; [reflexivity|split]]]].
  - intros q Hq Hne. apply filter_In. split; [exact Hq|].
    apply negb_true_iff, Z.eqb_neq. exact Hne.
  - apply length_map.
  - intros c Hc. apply in_map_iff in Hc. destruct Hc as [c0 [<- _]].
    unfold Orm.nullify_parent.
    destruct (Comment_blog_post_id c0) as [q|] eqn:Eq; [|congruence].
    destruct (q =? pid) eqn:E; simpl; [discriminate|].
    rewrite Eq. apply Z.eqb_neq in E. congruence.
Qed.

(** X14: on the two routes under [admin_required], a GET of any identity
    that is not the administrator, anonymous or logged in, is answered by
    [abort(403)]; store, session and flashes are untouched. *)
Theorem guarded_routes_forbid_non_admin (pid : Z) (f : FormData) (sa t : string)
        (db : DB) (sess : option Z) :
  is_admin (identity (mkCtx db [] sess [])) = false ->
  handle (mkRequest GET (P_edit_post pid) f sa t) db sess =
    mkOutcome (Raise (HTTPException 403)) db sess []
  /\ handle (mkRequest GET (P_delete pid) f sa t) db sess =
    mkOutcome (Raise (HTTPException 403)) db sess [].
Proof.
  intros Hna. run_handle. rewrite !admin_required_run.
  destruct (identity _) as [|u]; [split; reflexivity|].
  simpl in Hna. rewrite Hna. split; reflexivity.
Qed.

(** X15: deleting the same post a second time fails: after the
    administrator deleted an existing post, the same request again ends in
    the uncaught [UnmappedInstanceError] and leaves the store as the first
    deletion left it. *)
Theorem delete_twice (pid : Z) (f : FormData) (sa t : string) (db : DB)
        (sess : option Z) (p : BlogPost) :
  is_admin (identity (mkCtx db [] sess [])) = true ->
  find (fun q => BlogPost_id q =? pid) (blog_posts db) = Some p ->
  let o1 := handle (mkRequest GET (P_delete pid) f sa t) db sess in
  let o2 := handle (mkRequest GET (P_delete pid) f sa t)
                   (db_after o1) (session_after o1) in
  result o1 = Ok (Redirect EP_get_all_posts)
  /\ result o2 = Raise UnmappedInstanceError
  /\ db_after o2 = db_after o1.
Proof.
  intros Ha Hp o1 o2.
  assert (Hid : BlogPost_id p = pid).
  { apply find_some in Hp. destruct Hp as [_ E]. apply Z.eqb_eq in E. exact E. }
  assert (H1 : o1 = mkOutcome (Ok (Redirect EP_get_all_posts))
                     (mkDB (users db)
                           (filter (fun q => negb (BlogPost_id q =? pid)) (blog_posts db))
                           (map (Orm.nullify_parent pid) (comments db)))
                     sess []).
  { subst o1. run_handle. rewrite admin_required_run.
    destruct (identity _) as [|u]; [discriminate|]. simpl in Ha. rewrite Ha.
    unfold delete_post. run_view. rewrite Hp. simpl. rewrite Hid. reflexivity. }
  subst o2. rewrite H1. simpl. split; [reflexivity|].
  run_handle. rewrite admin_required_run.
  change (identity _) with (identity (mkCtx db [] sess [])).
  destruct (identity _) as [|u]; [discriminate|]. simpl in Ha. rewrite Ha.
  unfold delete_post. run_view. rewrite find_filter_out. simpl.
  split; reflexivity.
Qed.

(** X13: for the administrator and an id the INTEGER key column can hold
    (0 <= id < 2^63), GET /edit-post/<id> renders the form when the post
    exists and ends in the uncaught [AttributeError] of reading [post.title]
    on [None] when it does not; store, session and flashes are untouched in
    both cases. *)
Theorem edit_post_outcome (pid : Z) (f : FormData) (sa t : string)
        (db : DB) (sess : option Z) :
  0 <= pid < 2 ^ 63 ->
  is_admin (identity (mkCtx db [] sess [])) = true ->
  handle (mkRequest GET (P_edit_post pid) f sa t) db sess =
  mkOutcome
    (match find (fun p => BlogPost_id p =? pid) (blog_posts db) with
     | Some _ => Ok (Render "make-post.html")
     | None => Raise (AttributeError "title")
     end) db sess [].
Proof.
  intros _ Ha. run_handle. rewrite admin_required_run.
  destruct (identity _) as [|u]; [discriminate|]. simpl in Ha. rewrite Ha.
  unfold edit_post, validate_on_submit. simpl. run_view.
  destruct (find _ (blog_posts db)); reflexivity.
Qed.

End Views.

(** * The application on concrete requests *)

Module Scenarios.

Import Sample.

Lemma two_users_reachable : reachable two_users.
Proof. apply run_reachable, reach_init. Qed.

Lemma one_post_reachable : reachable one_post.
Proof. apply run_reachable, two_users_reachable. Qed.

Lemma commented_reachable : reachable commented.
Proof. apply run_reachable, one_post_reachable. Qed.

(** C1, what the code does: the second registered user (id 2, not the
    administrator) logs in and submits the new-post form; no access check
    runs, the response is the redirect of a successful creation and the post
    is in the store with that user as author.  An anonymous GET renders the
    form with status 200. *)
Theorem add_new_post_open_to_non_admin :
  let req := request POST P_new_post (post_form "Second" "sub" "i.png" "text") in
  snd (run [request POST P_login (login_form "bob@mail.org" "hunter2")]
           two_users None) = Some 2
  /\ identity (mkCtx two_users [] (Some 2) []) = LoggedIn bob
  /\ result (handle req two_users (Some 2)) = Ok (Redirect EP_get_all_posts)
  /\ blog_posts (db_after (handle req two_users (Some 2))) =
     [mkBlogPost 1 (Some 2) "Second" "sub" "November 03, 2026" "text" "i.png"]
  /\ status (result (handle (request GET P_new_post blank) two_users None)) = 200.
Proof. vm_compute. repeat split; reflexivity. Qed.

(** C2, what the code does: an anonymous visitor submits the comment form
    of post 1; no comment is stored, and the request ends in the uncaught
    [AttributeError] of the relationship assignment (status 500), not in an
    unauthenticated (401) outcome. *)
Theorem anonymous_comment_crashes :
  let o := handle (request POST (P_post 1) (comment_form "Nice post")) one_post None in
  result o = Raise (AttributeError "_sa_instance_state")
  /\ status (result o) = 500
  /\ status (result o) <> 401
  /\ db_after o = one_post.
Proof. vm_compute. repeat split; try reflexivity. discriminate. Qed.

(** C4, what the code does: the administrator requests /delete/7 while no
    post has id 7; [db.session.delete(None)] raises, so the request ends in
    an uncaught [UnmappedInstanceError] (status 500) with the store unchanged.
    Deleting the existing post 1 removes it and redirects to the list. *)
Theorem delete_missing_post_crashes :
  let o := handle (request GET (P_delete 7) blank) one_post (Some 1) in
  let o1 := handle (request GET (P_delete 1) blank) one_post (Some 1) in
  result o = Raise UnmappedInstanceError
  /\ status (result o) = 500
  /\ db_after o = one_post
  /\ result o1 = Ok (Redirect EP_get_all_posts)
  /\ blog_posts (db_after o1) = [].
Proof. vm_compute. repeat split; reflexivity. Qed.

(** C8, what the code does: the administrator submits the new-post form
    with the title of an existing post; the commit violates the unique
    constraint and the request ends in the uncaught [IntegrityError]
    (status 500) with nothing flashed and no redirect, the store unchanged
    and still one post of that title.  A duplicate email at /register, by
    contrast, is answered by the redirect with the flashed notice. *)
Theorem duplicate_title_crashes :
  let o := handle (request POST P_new_post
                     (post_form "Hello World" "again" "j.png" "Hi!"))
                  one_post (Some 1) in
  let r := handle (request POST P_register
                     (register_form "bob@mail.org" "pw" "Rob"))
                  one_post None in
  result o = Raise (IntegrityError "blog_posts.title")
  /\ status (result o) = 500
  /\ flashed o = []
  /\ db_after o = one_post
  /\ count_title "Hello World" (db_after o) = 1%nat
  /\ status (result r) = 302
  /\ flashed r = [DuplicateEmail_notice].
Proof. vm_compute. repeat split; reflexivity. Qed.

(** C3 as stated fails: in a reachable store where every comment has an
    existing author and an existing parent post, the administrator deletes
    the post; the comment stays, its parent reference set to NULL. *)
Lemma delete_post_orphans_comments :
  reachable commented
  /\ comments_referenced commented
  /\ ~ comments_referenced
        (db_after (handle (request GET (P_delete 1) blank) commented (Some 1))).
Proof.
  split; [exact commented_reachable | split].
  - intros c Hin. vm_compute in Hin. destruct Hin as [<-|[]]. split.
    + exists bob. split; [vm_compute; tauto | reflexivity].
    + exists (mkBlogPost 1 (Some 1) "Hello World" "first" "November 03, 2026"
                         "Hi." "h.png").
      split; [vm_compute; tauto | reflexivity].
  - intros H.
    assert (Hin : In (mkComment 1 (Some 2) None "Nice post")
                     (comments (db_after (handle (request GET (P_delete 1) blank)
                                                 commented (Some 1)))))
      by (vm_compute; tauto).
    destruct (H _ Hin) as [_ [p [_ E]]]. discriminate E.
Qed.

Lemma reachable_comments_anchored_witness :
  reachable commented /\ unique_keys commented /\ comments_anchored commented.
Proof.
  split; [exact commented_reachable|].
  apply (reachable_comments_anchored commented). exact commented_reachable.
Defined.

Lemma titles_stay_unique_witness :
  let req := request POST P_new_post (post_form "Hello World" "again" "j.png" "Hi!") in
  reachable one_post
  /\ unique_titles one_post
  /\ result (handle req one_post (Some 1)) = Raise (IntegrityError "blog_posts.title")
  /\ count_title "Hello World" (db_after (handle req one_post (Some 1))) = 1%nat.
Proof.
  intros req. split; [exact one_post_reachable|].
  destruct (titles_stay_unique one_post one_post_reachable) as [Hu Hdup].
  split; [exact Hu|].
  assert (Hin : In (title_data (form req)) (map title (blog_posts one_post)))
    by (vm_compute; tauto).
  destruct (Hdup req (Some 1) eq_refl eq_refl eq_refl Hin) as [_ [Hc [_ [_ Hr]]]].
  split; [exact Hr | exact Hc].
Defined.

Lemma register_duplicate_or_fresh_witness :
  let dup := request POST P_register (register_form "bob@mail.org" "pw" "Rob") in
  let new := request POST P_register (register_form "eve@mail.org" "pw" "Eve") in
  db_after (handle dup two_users None) = two_users
  /\ flashed (handle dup two_users None) = [DuplicateEmail_notice]
  /\ List.length (users (db_after (handle new two_users None))) = 3%nat.
Proof.
  intros dup new.
  destruct (register_duplicate_or_fresh (ext := collaborators) dup two_users None eq_refl eq_refl eq_refl)
    as [Hdup _].
  destruct (register_duplicate_or_fresh (ext := collaborators) new two_users None eq_refl eq_refl eq_refl)
    as [_ Hnew].
  destruct Hdup as [Hdb [Hfl _]].
  { exists bob. split; [vm_compute; tauto | reflexivity]. }
  destruct Hnew as [u [Hdb' _]].
  { intros u Hin. vm_compute in Hin.
    destruct Hin as [<-|[<-|[]]]; vm_compute; discriminate. }
  split; [exact Hdb | split; [exact Hfl|]].
  rewrite Hdb'. reflexivity.
Defined.

Lemma login_failures_indistinguishable_witness :
  let unknown := request POST P_login (login_form "nobody@mail.org" "hunter2") in
  let wrong := request POST P_login (login_form "bob@mail.org" "hunter3") in
  user_with_email two_users "nobody@mail.org" = None
  /\ user_with_email two_users "bob@mail.org" = Some bob
  /\ check_password_hash (password bob) "hunter3" = false
  /\ handle unknown two_users None = handle wrong two_users None.
Proof.
  intros unknown wrong.
  split; [reflexivity | split; [reflexivity | split; [reflexivity|]]].
  apply (login_failures_indistinguishable (ext := collaborators) unknown wrong two_users None bob);
    reflexivity.
Defined.

Lemma admin_required_grants_iff_admin_witness :
  let c := mkCtx two_users [] (Some 2) [] in
  ~ (identity c <> AnonymousUser /\ identity_id (identity c) = Some 1)
  /\ admin_required delete_post 1 c = (Raise (HTTPException 403), c).
Proof.
  intros c.
  assert (Hn : ~ (identity c <> AnonymousUser /\ identity_id (identity c) = Some 1)).
  { vm_compute. intros [_ H]. discriminate H. }
  split; [exact Hn|].
  apply (proj2 (admin_required_grants_iff_admin c) Hn).
Defined.

End Scenarios.

(** * The further properties on concrete requests *)

Module Checks.

Import Sample.

Lemma login_success_witness :
  let f := login_form "bob@mail.org" "hunter2" in
  validate LoginForm f = true
  /\ user_with_email two_users (email_data f) = Some bob
  /\ check_password_hash (password bob) (password_data f) = true
  /\ session_after (handle (request POST P_login f) two_users None) = Some 2.
Proof.
  intros f.
  destruct (login_success (ext := collaborators) f "Xy12aB9q" "November 03, 2026"
              two_users None bob eq_refl eq_refl eq_refl) as [H _].
  split; [reflexivity | split; [reflexivity | split; [reflexivity|]]].
  unfold request. rewrite H. reflexivity.
Defined.

Lemma register_then_login_witness :
  let f := register_form "eve@mail.org" "s3cret" "Eve" in
  let g := login_form "eve@mail.org" "s3cret" in
  user_with_email two_users (email_data f) = None
  /\ check_password_hash (generate_password_hash (password_data f) "Xy12aB9q")
                         (password_data f) = true
  /\ snd (run [request POST P_register f; request POST P_login g] two_users None)
     = Some 3.
Proof.
  intros f g.
  destruct (register_then_login (ext := collaborators) f g
              "Xy12aB9q" "November 03, 2026" "Xy12aB9q" "November 03, 2026"
              two_users None eq_refl eq_refl eq_refl eq_refl eq_refl eq_refl)
    as [H _].
  split; [reflexivity | split; [reflexivity|]].
  unfold request. rewrite H. reflexivity.
Defined.

Lemma emails_stay_unique_witness :
  reachable two_users /\ unique_emails two_users.
Proof.
  split; [exact Scenarios.two_users_reachable|].
  exact (proj1 (emails_stay_unique two_users Scenarios.two_users_reachable)).
Defined.

Lemma no_submission_no_write_witness :
  let req := request GET (P_post 1) (comment_form "Nice post") in
  (forall fc, validate_on_submit fc req = false)
  /\ (forall pid, path req <> P_delete pid)
  /\ db_after (handle req one_post (Some 2)) = one_post.
Proof.
  intros req.
  assert (H1 : forall fc, validate_on_submit fc req = false)
    by (intros fc; reflexivity).
  assert (H2 : forall pid, path req <> P_delete pid)
    by (intros pid; discriminate).
  split; [exact H1 | split; [exact H2|]].
  exact (no_submission_no_write req one_post (Some 2) H1 H2).
Defined.

Lemma non_admin_only_appends_witness :
  let req := request POST (P_post 1) (comment_form "Nice post") in
  is_admin (identity (mkCtx one_post [] (Some 2) [])) = false
  /\ exists lp lc,
       blog_posts (db_after (handle req one_post (Some 2))) = blog_posts one_post ++ lp
       /\ comments (db_after (handle req one_post (Some 2))) = comments one_post ++ lc
       /\ (List.length lp + List.length lc <= 1)%nat.
Proof.
  intros req. split; [reflexivity|].
  exact (non_admin_only_appends req one_post (Some 2) eq_refl).
Defined.

Lemma anonymous_changes_only_users_witness :
  let req := request POST P_register (register_form "eve@mail.org" "s3cret" "Eve") in
  identity (mkCtx one_post [] None []) = AnonymousUser
  /\ blog_posts (db_after (handle req one_post None)) = blog_posts one_post
  /\ comments (db_after (handle req one_post None)) = comments one_post.
Proof.
  intros req. split; [reflexivity|].
  exact (anonymous_changes_only_users req one_post None eq_refl).
Defined.

Lemma session_stays_valid_witness :
  let req := request POST P_login (login_form "bob@mail.org" "hunter2") in
  session_valid two_users None
  /\ session_valid (db_after (handle req two_users None))
                   (session_after (handle req two_users None)).
Proof.
  intros req. split; [exact I|].
  exact (session_stays_valid req two_users None I).
Defined.

Lemma reachable_dense_user_keys_witness :
  reachable two_users /\ dense_user_keys two_users.
Proof.
  split; [exact Scenarios.two_users_reachable|].
  exact (proj1 (reachable_dense_user_keys two_users Scenarios.two_users_reachable)).
Defined.

Lemma reachable_posts_anchored_witness :
  reachable one_post /\ posts_anchored one_post.
Proof.
  split; [exact Scenarios.one_post_reachable|].
  exact (reachable_posts_anchored one_post Scenarios.one_post_reachable).
Defined.

Lemma register_twice_witness :
  let f := register_form "eve@mail.org" "s3cret" "Eve" in
  let g := register_form "eve@mail.org" "other" "Evelyn" in
  user_with_email two_users (email_data f) = None
  /\ List.length
       (users (db_after (handle (request POST P_register f) two_users None)))
     = 3%nat.
Proof.
  intros f g. split; [reflexivity|].
  destruct (register_twice (ext := collaborators) f g
              "Xy12aB9q" "November 03, 2026" "Xy12aB9q" "November 03, 2026"
              two_users None None eq_refl eq_refl eq_refl eq_refl) as [H _].
  exact H.
Defined.

Lemma comment_bound_to_identity_witness :
  let f := comment_form "Nice post" in
  0 <= 1 < 2 ^ 63
  /\ validate CommentForm f = true
  /\ identity (mkCtx one_post [] (Some 2) []) = LoggedIn bob
  /\ result (handle (request POST (P_post 1) f) one_post (Some 2))
     = Ok (Redirect (EP_show_post 1)).
Proof.
  intros f.
  assert (Hk : 0 <= 1 < 2 ^ 63) by (split; [lia | reflexivity]).
  split; [exact Hk | split; [reflexivity | split; [reflexivity|]]].
  destruct (comment_bound_to_identity (ext := collaborators) 1 f
              "Xy12aB9q" "November 03, 2026" one_post (Some 2) bob
              Hk eq_refl eq_refl) as [H _].
  exact H.
Defined.

Lemma create_then_get_witness :
  let f := post_form "Second" "sub" "i.png" "text" in
  identity (mkCtx one_post [] (Some 2) []) = LoggedIn bob
  /\ Orm.title_taken (title_data f) (blog_posts one_post) = false
  /\ exists p,
       blog_posts (db_after (handle (request POST P_new_post f) one_post (Some 2)))
       = blog_posts one_post ++ [p]
       /\ title p = "Second".
Proof.
  intros f. split; [reflexivity | split; [reflexivity|]].
  destruct (create_then_get (ext := collaborators) f
              "Xy12aB9q" "November 03, 2026" one_post (Some 2) bob
              eq_refl eq_refl eq_refl) as [p [H1 [_ [H2 _]]]].
  exists p. split; [exact H1 | exact H2].
Defined.

Lemma delete_then_get_witness :
  let o := handle (request GET (P_delete 1) blank) commented (Some 1) in
  is_admin (identity (mkCtx commented [] (Some 1) [])) = true
  /\ find (fun q => BlogPost_id q =? 1) (blog_posts (db_after o)) = None
  /\ List.length (comments (db_after o)) = List.length (comments commented).
Proof.
  intros o. split; [reflexivity|].
  destruct (delete_then_get (ext := collaborators) 1 blank
              "Xy12aB9q" "November 03, 2026" commented (Some 1)
              (mkBlogPost 1 (Some 1) "Hello World" "first" "November 03, 2026"
                          "Hi." "h.png")
              eq_refl eq_refl) as [_ [H1 [_ [_ [H2 _]]]]].
  split; [exact H1 | exact H2].
Defined.

Lemma delete_twice_witness :
  let o1 := handle (request GET (P_delete 1) blank) one_post (Some 1) in
  let o2 := handle (request GET (P_delete 1) blank) (db_after o1) (session_after o1) in
  is_admin (identity (mkCtx one_post [] (Some 1) [])) = true
  /\ result o2 = Raise UnmappedInstanceError.
Proof.
  intros o1 o2. split; [reflexivity|].
  destruct (delete_twice (ext := collaborators) 1 blank
              "Xy12aB9q" "November 03, 2026" one_post (Some 1)
              (mkBlogPost 1 (Some 1) "Hello World" "first" "November 03, 2026"
                          "Hi." "h.png")
              eq_refl eq_refl) as [_ [H _]].
  exact H.
Defined.

Lemma guarded_routes_forbid_non_admin_witness :
  is_admin (identity (mkCtx one_post [] (Some 2) [])) = false
  /\ result (handle (request GET (P_delete 1) blank) one_post (Some 2))
     = Raise (HTTPException 403).
Proof.
  split; [reflexivity|].
  destruct (guarded_routes_forbid_non_admin (ext := collaborators) 1 blank
              "Xy12aB9q" "November 03, 2026" one_post (Some 2) eq_refl)
    as [_ H].
  unfold request. rewrite H. reflexivity.
Defined.

Lemma edit_post_outcome_witness :
  0 <= 7 < 2 ^ 63
  /\ is_admin (identity (mkCtx one_post [] (Some 1) [])) = true
  /\ result (handle (request GET (P_edit_post 7) blank) one_post (Some 1))
     = Raise (AttributeError "title").
Proof.
  assert (Hk : 0 <= 7 < 2 ^ 63) by (split; [lia | reflexivity]).
  split; [exact Hk | split; [reflexivity|]].
  unfold request.
  rewrite (edit_post_outcome (ext := collaborators) 7 blank
             "Xy12aB9q" "November 03, 2026" one_post (Some 1) Hk eq_refl).
  reflexivity.
Defined.

End Checks.
